(** * attest-fest: the EAS context provider

    A shallow embedding of [src/eas/components/EasContextProvider.tsx]:
    the schema resolver ([createSchemaFromRecord], [initSchemaEncoder]),
    the two submission operations ([createSafeAttestationsTransaction],
    [createAttestations]) and [resetTransactions].

    The provider is a React component.  Its functions close over the
    [state] of the render that created them and write to the component
    state through [setState (prev => ...)].  Both are kept apart here: an
    operation receives the captured [state] as an argument and updates the
    [store] of the [World] it runs in.  Calls into the SDKs (EAS, Safe,
    csv-parse, plausible) and into the helper modules of the repository
    that the provider imports are fields of [Externals]; a call that can
    throw or reject returns [Error + A]. *)

From Stdlib Require Import List String Ascii ZArith Bool Lia.
Import ListNotations.
Local Open Scope string_scope.
Local Open Scope list_scope.

(** ** JavaScript strings and arrays

    A character is a UTF-16 code unit below 256, so a string is a
    [String.string]. *)

Module JS.

(** [WhiteSpace] and [LineTerminator] code units below 256, the ones
    [String.prototype.trim] strips: TAB, LF, VT, FF, CR, SP, NBSP. *)
Definition isWhiteSpace (c : ascii) : bool :=
  let n := nat_of_ascii c in
  ((9 <=? n)%nat && (n <=? 13)%nat) || (n =? 32)%nat || (n =? 160)%nat.

Fixpoint trimStart (s : string) : string :=
  match s with
  | EmptyString => EmptyString
  | String c r => if isWhiteSpace c then trimStart r else s
  end.

Fixpoint trimEnd (s : string) : string :=
  match s with
  | EmptyString => EmptyString
  | String c r =>
      match trimEnd r with
      | EmptyString => if isWhiteSpace c then EmptyString else String c EmptyString
      | r' => String c r'
      end
  end.

Definition trim (s : string) : string := trimEnd (trimStart s).

(** [s.split(sep)] for a separator of one character: never empty, the
    empty string splits into one empty piece. *)
Fixpoint split (sep : ascii) (s : string) : list string :=
  match s with
  | EmptyString => [EmptyString]
  | String c r =>
      if Ascii.eqb c sep then EmptyString :: split sep r
      else match split sep r with
           | piece :: pieces => String c piece :: pieces
           | [] => [String c EmptyString]
           end
  end.

(** [a[i]] for a computed index: [undefined] below zero and past the end. *)
Definition index {A : Type} (a : list A) (i : Z) : option A :=
  if (i <? 0)%Z then None else nth_error a (Z.to_nat i).

(** [a.length] as the number it is in the source. *)
Definition length {A : Type} (a : list A) : Z := Z.of_nat (List.length a).

(** Truthiness of a possibly undefined string and number. *)
Definition truthyString (s : option string) : option string :=
  match s with
  | Some EmptyString => None
  | other => other
  end.

Definition truthyNumber (n : option Z) : option Z :=
  match n with
  | Some 0%Z => None
  | other => other
  end.

End JS.

(** ** Data model *)

Record Error := { message : string }.

(** [SchemaField]: [name] is the second piece of a declaration and is
    [undefined] when the declaration has no space. *)
Record SchemaField := { name : option string; type : string }.

Module SchemaRecord.
Record t := { schema : string; revocable : bool }.
End SchemaRecord.

Record AttestationRequestData := {
  recipient : string;
  expirationTime : Z;
  revocable : bool;
  refUID : option string;
  data : string;
  value : Z
}.

Module MultiAttestRequest.
Record t := { schema : string; data : list AttestationRequestData }.
End MultiAttestRequest.

Inductive OperationType := Call | DelegateCall.

Module SafeTransactionDataPartial.
Record t := { to : string; value : string; data : string; operation : OperationType }.
End SafeTransactionDataPartial.

Record AnalyticsEvent := {
  eventName : string;
  props_chain : Z;
  props_wallet : string;
  props_schema : string;
  props_attestationCount : nat
}.

Record EasConfig := { address : string; registryAddress : string }.

Record Chain := { id : Z }.

Inductive SafeStatus := SafeCreating | SafeSigning | SafeCreated | SafeError.

Inductive TransactionStatus := Creating | Attesting | WaitUid | Success | TxError.

Definition ZERO_BYTES32 : string :=
  "0x0000000000000000000000000000000000000000000000000000000000000000".

Definition refUIDField : SchemaField := {| name := Some "refUID"; type := "bytes32" |}.
Definition recipientField : SchemaField := {| name := Some "recipient"; type := "address" |}.

(** Objects of the SDKs.  The provider only passes them around, so each is
    a reference. *)
Inductive Signer := SignerRef (ref : nat).
Inductive Safe := SafeRef (ref : nat).
Inductive SafeApiKit := SafeApiKitRef (ref : nat).
Inductive PublicClient := PublicClientRef (ref : nat).
Inductive Provider := ProviderRef (ref : nat).
Inductive SchemaEncoder := SchemaEncoderRef (ref : nat).
Inductive SafeTransaction := SafeTransactionRef (ref : nat).
Inductive ContractTransaction := ContractTransactionRef (ref : nat).

Module SafeSignature.
Record t := { signer : string; data : string }.
End SafeSignature.

(** What [plausible.trackEvent] returns; the provider drops it. *)
Inductive TrackResult := TrackResultRef (ref : nat).

Record SafeTransactionState := {
  status : SafeStatus;
  txHash : option string;
  signature : option SafeSignature.t;
  error : option Error
}.

(** [EasContext], the component state: every field but [schemaUid] is
    optional in the source and starts [undefined]. *)
Record EasContext := {
  schemaUid : string;
  schemaRecord : option SchemaRecord.t;
  schemaRecordIsLoading : option bool;
  schemaRecordError : option Error;
  schemaError : option Error;
  schema : option (list SchemaField);
  schemaEncoder : option SchemaEncoder;
  schemaEncoderError : option Error;
  safeTransactionState : option SafeTransactionState;
  transaction : option ContractTransaction;
  transactionError : option Error;
  transactionStatus : option TransactionStatus;
  attestationUids : option (list string)
}.

(** [useState<EasContext>({ schemaUid })] *)
Definition initialState (uid : string) : EasContext :=
  {| schemaUid := uid; schemaRecord := None; schemaRecordIsLoading := None;
     schemaRecordError := None; schemaError := None; schema := None;
     schemaEncoder := None; schemaEncoderError := None;
     safeTransactionState := None; transaction := None;
     transactionError := None; transactionStatus := None;
     attestationUids := None |}.

(** What the hooks and the global store hand to one render. *)
Record Hooks := {
  props_schemaUid : string;
  safeAddress : option string;
  safe : option Safe;
  safeApiKit : option SafeApiKit;
  chain : option Chain;
  easConfig : option EasConfig;
  rpcProvider : option Provider;
  rpcSigner : option Signer;
  publicClient : option PublicClient;
  csv : string;
  includeRefUid : bool
}.

Record ProposeTransactionProps := {
  propose_safeAddress : string;
  safeTransactionData : SafeTransaction;
  safeTxHash : string;
  senderAddress : string;
  senderSignature : string
}.

(** The functions the provider imports.  [isSchemaFieldTypeName],
    [shouldIncludeRow], [encodeRow], [processRecipient] and
    [createMultiAttestRequest] are the repository's own helper modules
    ([utils/isSchemaFieldTypeName], [utils/encodeCsv]); the rest are the
    EAS, Safe, ethers, csv-parse and plausible SDKs. *)
Record Externals := {
  isSchemaFieldTypeName : string -> bool;
  getSchema : Provider -> string -> string -> Error + SchemaRecord.t;
  newSchemaEncoder : string -> Error + SchemaEncoder;
  parse : string -> Error + list (list string);
  shouldIncludeRow : list string -> list SchemaField -> bool;
  encodeRow : list string -> list SchemaField -> SchemaEncoder -> Error + string;
  processRecipient : option string -> PublicClient -> Error + string;
  encodeFunctionData : string -> MultiAttestRequest.t -> Error + string;
  createTransaction : Safe -> list SafeTransactionDataPartial.t -> Error + SafeTransaction;
  getAddress : Signer -> Error + string;
  getTransactionHash : Safe -> SafeTransaction -> Error + string;
  signTransaction : Safe -> SafeTransaction -> Error + SafeTransaction;
  getSignature : SafeTransaction -> string -> option SafeSignature.t;
  proposeTransaction : SafeApiKit -> ProposeTransactionProps -> Error + unit;
  trackEvent : AnalyticsEvent -> Error + TrackResult;
  createMultiAttestRequest :
    string -> string -> list SchemaField -> SchemaEncoder -> bool -> PublicClient ->
    Error + MultiAttestRequest.t;
  multiAttest : string -> Signer -> list MultiAttestRequest.t -> Error + ContractTransaction;
  wait : ContractTransaction -> Error + list string
}.

(** The same externals with another analytics sink. *)
Definition withTrackEvent (x : Externals) (f : AnalyticsEvent -> Error + TrackResult)
  : Externals :=
  {| isSchemaFieldTypeName := isSchemaFieldTypeName x; getSchema := getSchema x;
     newSchemaEncoder := newSchemaEncoder x; parse := parse x;
     shouldIncludeRow := shouldIncludeRow x; encodeRow := encodeRow x;
     processRecipient := processRecipient x;
     encodeFunctionData := encodeFunctionData x;
     createTransaction := createTransaction x; getAddress := getAddress x;
     getTransactionHash := getTransactionHash x;
     signTransaction := signTransaction x; getSignature := getSignature x;
     proposeTransaction := proposeTransaction x; trackEvent := f;
     createMultiAttestRequest := createMultiAttestRequest x;
     multiAttest := multiAttest x; wait := wait x |}.

(** A call that left the provider, in the order it was made. *)
Inductive Effect :=
| GetSchema (uid : string)
| NewSchemaEncoder (schema : string)
| Parse (csv : string)
| EncodeRow (row : list string)
| ProcessRecipient (cell : option string)
| EncodeFunctionData (request : MultiAttestRequest.t)
| CreateTransaction (txData : SafeTransactionDataPartial.t)
| GetAddress
| GetTransactionHash
| SignTransaction
| ProposeTransaction (props : ProposeTransactionProps)
| TrackEvent (event : AnalyticsEvent)
| CreateMultiAttestRequest (csv : string)
| MultiAttest (requests : list MultiAttestRequest.t)
| Wait.

(** ** The effect monad: component store, its history, the calls made,
    and exceptions *)

Record World := {
  store : EasContext;
  history : list EasContext;
  effects : list Effect
}.

Definition M (A : Type) : Type := World -> (Error + A) * World.

Definition ret {A} (a : A) : M A := fun w => (inr a, w).

Definition bind {A B} (m : M A) (k : A -> M B) : M B :=
  fun w => match m w with
           | (inr a, w') => k a w'
           | (inl e, w') => (inl e, w')
           end.

Definition throw {A} (e : Error) : M A := fun w => (inl e, w).

(** [try { body } catch (e) { handler }] *)
Definition tryCatch {A} (body : M A) (handler : Error -> M A) : M A :=
  fun w => match body w with
           | (inl e, w') => handler e w'
           | done => done
           end.

(** [setState((prev) => f prev)] *)
Definition setState (f : EasContext -> EasContext) : M unit :=
  fun w => (inr tt, {| store := f (store w);
                       history := history w ++ [f (store w)];
                       effects := effects w |}).

(** A call into an SDK or helper: recorded, then its result or exception. *)
Definition perform {A} (c : Effect) (r : Error + A) : M A :=
  fun w => (r, {| store := store w; history := history w;
                  effects := effects w ++ [c] |}).

Notation "x <- m ;; k" := (bind m (fun x => k))
  (at level 61, m at next level, right associativity).
Notation "m ;;; k" := (bind m (fun _ => k))
  (at level 61, right associativity).

(** A world in which nothing has happened yet. *)
Definition fresh (s : EasContext) : World :=
  {| store := s; history := []; effects := [] |}.

(** ** Spread updates: [{ ...prev, field: v }] *)

Definition with_schemaRecord (v : option SchemaRecord.t) (prev : EasContext) : EasContext :=
  {| schemaUid := schemaUid prev;
     schemaRecord := v;
     schemaRecordIsLoading := schemaRecordIsLoading prev;
     schemaRecordError := schemaRecordError prev;
     schemaError := schemaError prev;
     schema := schema prev;
     schemaEncoder := schemaEncoder prev;
     schemaEncoderError := schemaEncoderError prev;
     safeTransactionState := safeTransactionState prev;
     transaction := transaction prev;
     transactionError := transactionError prev;
     transactionStatus := transactionStatus prev;
     attestationUids := attestationUids prev |}.

Definition with_schemaRecordIsLoading (v : option bool) (prev : EasContext) : EasContext :=
  {| schemaUid := schemaUid prev;
     schemaRecord := schemaRecord prev;
     schemaRecordIsLoading := v;
     schemaRecordError := schemaRecordError prev;
     schemaError := schemaError prev;
     schema := schema prev;
     schemaEncoder := schemaEncoder prev;
     schemaEncoderError := schemaEncoderError prev;
     safeTransactionState := safeTransactionState prev;
     transaction := transaction prev;
     transactionError := transactionError prev;
     transactionStatus := transactionStatus prev;
     attestationUids := attestationUids prev |}.

Definition with_schemaRecordError (v : option Error) (prev : EasContext) : EasContext :=
  {| schemaUid := schemaUid prev;
     schemaRecord := schemaRecord prev;
     schemaRecordIsLoading := schemaRecordIsLoading prev;
     schemaRecordError := v;
     schemaError := schemaError prev;
     schema := schema prev;
     schemaEncoder := schemaEncoder prev;
     schemaEncoderError := schemaEncoderError prev;
     safeTransactionState := safeTransactionState prev;
     transaction := transaction prev;
     transactionError := transactionError prev;
     transactionStatus := transactionStatus prev;
     attestationUids := attestationUids prev |}.

Definition with_schemaError (v : option Error) (prev : EasContext) : EasContext :=
  {| schemaUid := schemaUid prev;
     schemaRecord := schemaRecord prev;
     schemaRecordIsLoading := schemaRecordIsLoading prev;
     schemaRecordError := schemaRecordError prev;
     schemaError := v;
     schema := schema prev;
     schemaEncoder := schemaEncoder prev;
     schemaEncoderError := schemaEncoderError prev;
     safeTransactionState := safeTransactionState prev;
     transaction := transaction prev;
     transactionError := transactionError prev;
     transactionStatus := transactionStatus prev;
     attestationUids := attestationUids prev |}.

Definition with_schema (v : option (list SchemaField)) (prev : EasContext) : EasContext :=
  {| schemaUid := schemaUid prev;
     schemaRecord := schemaRecord prev;
     schemaRecordIsLoading := schemaRecordIsLoading prev;
     schemaRecordError := schemaRecordError prev;
     schemaError := schemaError prev;
     schema := v;
     schemaEncoder := schemaEncoder prev;
     schemaEncoderError := schemaEncoderError prev;
     safeTransactionState := safeTransactionState prev;
     transaction := transaction prev;
     transactionError := transactionError prev;
     transactionStatus := transactionStatus prev;
     attestationUids := attestationUids prev |}.

Definition with_schemaEncoder (v : option SchemaEncoder) (prev : EasContext) : EasContext :=
  {| schemaUid := schemaUid prev;
     schemaRecord := schemaRecord prev;
     schemaRecordIsLoading := schemaRecordIsLoading prev;
     schemaRecordError := schemaRecordError prev;
     schemaError := schemaError prev;
     schema := schema prev;
     schemaEncoder := v;
     schemaEncoderError := schemaEncoderError prev;
     safeTransactionState := safeTransactionState prev;
     transaction := transaction prev;
     transactionError := transactionError prev;
     transactionStatus := transactionStatus prev;
     attestationUids := attestationUids prev |}.

Definition with_schemaEncoderError (v : option Error) (prev : EasContext) : EasContext :=
  {| schemaUid := schemaUid prev;
     schemaRecord := schemaRecord prev;
     schemaRecordIsLoading := schemaRecordIsLoading prev;
     schemaRecordError := schemaRecordError prev;
     schemaError := schemaError prev;
     schema := schema prev;
     schemaEncoder := schemaEncoder prev;
     schemaEncoderError := v;
     safeTransactionState := safeTransactionState prev;
     transaction := transaction prev;
     transactionError := transactionError prev;
     transactionStatus := transactionStatus prev;
     attestationUids := attestationUids prev |}.

Definition with_safeTransactionState (v : option SafeTransactionState) (prev : EasContext) : EasContext :=
  {| schemaUid := schemaUid prev;
     schemaRecord := schemaRecord prev;
     schemaRecordIsLoading := schemaRecordIsLoading prev;
     schemaRecordError := schemaRecordError prev;
     schemaError := schemaError prev;
     schema := schema prev;
     schemaEncoder := schemaEncoder prev;
     schemaEncoderError := schemaEncoderError prev;
     safeTransactionState := v;
     transaction := transaction prev;
     transactionError := transactionError prev;
     transactionStatus := transactionStatus prev;
     attestationUids := attestationUids prev |}.

Definition with_transaction (v : option ContractTransaction) (prev : EasContext) : EasContext :=
  {| schemaUid := schemaUid prev;
     schemaRecord := schemaRecord prev;
     schemaRecordIsLoading := schemaRecordIsLoading prev;
     schemaRecordError := schemaRecordError prev;
     schemaError := schemaError prev;
     schema := schema prev;
     schemaEncoder := schemaEncoder prev;
     schemaEncoderError := schemaEncoderError prev;
     safeTransactionState := safeTransactionState prev;
     transaction := v;
     transactionError := transactionError prev;
     transactionStatus := transactionStatus prev;
     attestationUids := attestationUids prev |}.

Definition with_transactionError (v : option Error) (prev : EasContext) : EasContext :=
  {| schemaUid := schemaUid prev;
     schemaRecord := schemaRecord prev;
     schemaRecordIsLoading := schemaRecordIsLoading prev;
     schemaRecordError := schemaRecordError prev;
     schemaError := schemaError prev;
     schema := schema prev;
     schemaEncoder := schemaEncoder prev;
     schemaEncoderError := schemaEncoderError prev;
     safeTransactionState := safeTransactionState prev;
     transaction := transaction prev;
     transactionError := v;
     transactionStatus := transactionStatus prev;
     attestationUids := attestationUids prev |}.

Definition with_transactionStatus (v : option TransactionStatus) (prev : EasContext) : EasContext :=
  {| schemaUid := schemaUid prev;
     schemaRecord := schemaRecord prev;
     schemaRecordIsLoading := schemaRecordIsLoading prev;
     schemaRecordError := schemaRecordError prev;
     schemaError := schemaError prev;
     schema := schema prev;
     schemaEncoder := schemaEncoder prev;
     schemaEncoderError := schemaEncoderError prev;
     safeTransactionState := safeTransactionState prev;
     transaction := transaction prev;
     transactionError := transactionError prev;
     transactionStatus := v;
     attestationUids := attestationUids prev |}.

Definition with_attestationUids (v : option (list string)) (prev : EasContext) : EasContext :=
  {| schemaUid := schemaUid prev;
     schemaRecord := schemaRecord prev;
     schemaRecordIsLoading := schemaRecordIsLoading prev;
     schemaRecordError := schemaRecordError prev;
     schemaError := schemaError prev;
     schema := schema prev;
     schemaEncoder := schemaEncoder prev;
     schemaEncoderError := schemaEncoderError prev;
     safeTransactionState := safeTransactionState prev;
     transaction := transaction prev;
     transactionError := transactionError prev;
     transactionStatus := transactionStatus prev;
     attestationUids := v |}.

(** ** The schema resolver *)

Section Operations.

Variable x : Externals.
Variable h : Hooks.

(** [loadSchemaRecord]; the second [if (!schemaUid) return] of the source
    cannot fire after the first and is left out. *)
Definition loadSchemaRecord : M unit :=
  match easConfig h, rpcProvider h, JS.truthyString (Some (props_schemaUid h)) with
  | Some cfg, Some provider, Some uid =>
      setState (fun prev =>
        with_schemaRecordError None
          (with_schemaRecordIsLoading (Some true) (with_schemaError None prev))) ;;;
      tryCatch
        (record <- perform (GetSchema uid)
                     (getSchema x provider (registryAddress cfg) uid) ;;
         setState (fun prev =>
           with_schemaRecordIsLoading (Some false)
             (with_schemaRecord (Some record) prev)))
        (fun err =>
           setState (fun prev =>
             with_schemaRecordError (Some err)
               (with_schemaRecordIsLoading (Some false)
                  (with_schemaRecord None prev))))
  | _, _, _ => ret tt
  end.

(** [const [type, name] = field.trim().split(" ")] *)
Definition destructureField (field : string) : option string * option string :=
  let pieces := JS.split " " (JS.trim field) in
  (nth_error pieces 0, nth_error pieces 1).

Definition invalidTypeName (type : string) : Error :=
  {| message := "Invalid type name: " ++ type |}.

(** The body of [forEach], threaded over the pieces of the schema string;
    [schema] is the array the callback pushes to.  [split] never returns
    an empty array, so [type] is never [undefined]; that branch is
    written out as the [else] branch of the source all the same. *)
Fixpoint forEachField (fields : list string) (schema : list SchemaField)
  : M (list SchemaField) :=
  match fields with
  | [] => ret schema
  | field :: rest =>
      match destructureField field with
      | (Some type, name) =>
          if isSchemaFieldTypeName x type then
            forEachField rest (schema ++ [{| name := name; type := type |}])
          else
            setState (with_schemaError (Some (invalidTypeName type))) ;;;
            forEachField rest schema
      | (None, _) =>
          setState (with_schemaError (Some (invalidTypeName "undefined"))) ;;;
          forEachField rest schema
      end
  end.

Definition createSchemaFromRecord (state : EasContext) : M unit :=
  match schemaRecord state with
  | None => ret tt
  | Some record =>
      schema <- forEachField (JS.split "," (SchemaRecord.schema record)) [] ;;
      let schema := if includeRefUid h then schema ++ [refUIDField] else schema in
      let schema := schema ++ [recipientField] in
      setState (with_schema (Some schema))
  end.

Definition initSchemaEncoder (state : EasContext) : M unit :=
  match JS.truthyString (option_map SchemaRecord.schema (schemaRecord state)) with
  | None => ret tt
  | Some schema =>
      tryCatch
        (schemaEncoder <- perform (NewSchemaEncoder schema) (newSchemaEncoder x schema) ;;
         setState (with_schemaEncoder (Some schemaEncoder)))
        (fun err => setState (with_schemaEncoderError (Some err)))
  end.

(** [parseCsv]: csv-parse's [parse] with [relax_column_count],
    [relax_quotes] and [trim]; the options are part of the external. *)
Definition parseCsv (csv : string) : M (list (list string)) :=
  perform (Parse csv) (parse x csv).

(** ** Submission through a Safe

    [new EAS(...)], [eas.connect(...)] and the [console] calls build or
    print and do not touch the state; they are left out, and the address
    and signer the [eas] object was built from are passed to the calls
    that go through it. *)

(** What the guard of [createSafeAttestationsTransaction] has narrowed
    once it did not throw. *)
Record SafeReady := {
  sr_rpcSigner : Signer;
  sr_safeAddress : string;
  sr_safe : Safe;
  sr_safeApiKit : SafeApiKit;
  sr_schemaEncoder : SchemaEncoder;
  sr_schema : list SchemaField;
  sr_easConfig : EasConfig;
  sr_publicClient : PublicClient;
  sr_chainId : Z;
  sr_schemaRecord : SchemaRecord.t
}.

(** The guard: [None] when one of the operands of its [||] is truthy,
    that is when the source throws. *)
Definition safePreconditions (state : EasContext) : option SafeReady :=
  match rpcSigner h, JS.truthyString (safeAddress h), safe h, safeApiKit h,
        schemaEncoder state, schema state, easConfig h, publicClient h,
        JS.truthyNumber (option_map id (chain h)), schemaRecord state with
  | Some signer, Some addr, Some sf, Some kit, Some encoder, Some fields,
    Some cfg, Some client, Some chainId, Some record =>
      if SchemaRecord.revocable record then
        Some {| sr_rpcSigner := signer; sr_safeAddress := addr; sr_safe := sf;
                sr_safeApiKit := kit; sr_schemaEncoder := encoder;
                sr_schema := fields; sr_easConfig := cfg;
                sr_publicClient := client; sr_chainId := chainId;
                sr_schemaRecord := record |}
      else None
  | _, _, _, _, _, _, _, _, _, _ => None
  end.

(** The cell handed to [processRecipient]: [row[row.length - 1]]. *)
Definition recipientCell (row : list string) : option string :=
  JS.index row (JS.length row - 1).

(** [includeRefUid ? row[row.length - 2] : "0x00...00"] *)
Definition refUIDCell (row : list string) : option string :=
  if includeRefUid h then JS.index row (JS.length row - 2)
  else Some ZERO_BYTES32.

(** The [for (const row of parsedCsv)] loop; [requestData] is the array
    it pushes to. *)
Fixpoint requestLoop (fields : list SchemaField) (encoder : SchemaEncoder)
    (client : PublicClient) (record : SchemaRecord.t)
    (parsedCsv : list (list string)) (requestData : list AttestationRequestData)
  : M (list AttestationRequestData) :=
  match parsedCsv with
  | [] => ret requestData
  | row :: rest =>
      if negb (shouldIncludeRow x row fields) then
        requestLoop fields encoder client record rest requestData
      else
        encodedData <- perform (EncodeRow row) (encodeRow x row fields encoder) ;;
        address <- perform (ProcessRecipient (recipientCell row))
                     (processRecipient x (recipientCell row) client) ;;
        let data :=
          {| recipient := address;
             expirationTime := 0;
             revocable := SchemaRecord.revocable record;
             refUID := refUIDCell row;
             data := encodedData;
             value := 0 |} in
        requestLoop fields encoder client record rest (requestData ++ [data])
  end.

Definition attestationCreated (chainId : Z) (count : nat) : AnalyticsEvent :=
  {| eventName := "attestation-created";
     props_chain := chainId;
     props_wallet := "safe";
     props_schema := props_schemaUid h;
     props_attestationCount := count |}.

Definition safeState (st : SafeStatus) (hash : option string)
    (sig : option SafeSignature.t) (err : option Error) : option SafeTransactionState :=
  Some {| status := st; txHash := hash; signature := sig; error := err |}.

Definition missingSafe : Error :=
  {| message := "Missing signer, safe, safeApiKit or ethersAdapter" |}.

Definition createSafeAttestationsTransaction (state : EasContext) : M unit :=
  tryCatch
    (match safePreconditions state with
     | None => throw missingSafe
     | Some r =>
         setState (with_safeTransactionState (safeState SafeCreating None None None)) ;;;
         parsedCsv <- parseCsv (csv h) ;;
         requestData <- requestLoop (sr_schema r) (sr_schemaEncoder r)
                          (sr_publicClient r) (sr_schemaRecord r) parsedCsv [] ;;
         let request :=
           {| MultiAttestRequest.schema := props_schemaUid h;
              MultiAttestRequest.data := requestData |} in
         callData <- perform (EncodeFunctionData request)
                       (encodeFunctionData x (address (sr_easConfig r)) request) ;;
         let txData :=
           {| SafeTransactionDataPartial.to := address (sr_easConfig r);
              SafeTransactionDataPartial.value := "0";
              SafeTransactionDataPartial.data := callData;
              SafeTransactionDataPartial.operation := Call |} in
         transaction <- perform (CreateTransaction txData)
                          (createTransaction x (sr_safe r) [txData]) ;;
         signerAddress <- perform GetAddress (getAddress x (sr_rpcSigner r)) ;;
         txHash <- perform GetTransactionHash
                     (getTransactionHash x (sr_safe r) transaction) ;;
         setState (with_safeTransactionState
                     (safeState SafeSigning (Some txHash) None None)) ;;;
         signedTransaction <- perform SignTransaction
                                (signTransaction x (sr_safe r) transaction) ;;
         match getSignature x signedTransaction signerAddress with
         | None => throw {| message := "Signing transaction failed" |}
         | Some signature =>
             let props :=
               {| propose_safeAddress := sr_safeAddress r;
                  safeTransactionData := transaction;
                  safeTxHash := txHash;
                  senderAddress := signerAddress;
                  senderSignature := SafeSignature.data signature |} in
             perform (ProposeTransaction props)
               (proposeTransaction x (sr_safeApiKit r) props) ;;;
             let event := attestationCreated (sr_chainId r) (List.length requestData) in
             perform (TrackEvent event) (trackEvent x event) ;;;
             setState (with_safeTransactionState
                         (safeState SafeCreated (Some txHash) (Some signature) None))
         end
     end)
    (fun e =>
       setState (with_safeTransactionState (safeState SafeError None None (Some e)))).

(** ** Direct submission *)

Record DirectReady := {
  dr_schemaEncoder : SchemaEncoder;
  dr_schema : list SchemaField;
  dr_easConfig : EasConfig;
  dr_rpcSigner : Signer;
  dr_publicClient : PublicClient;
  dr_chainId : Z;
  dr_schemaRecord : SchemaRecord.t
}.

Definition directPreconditions (state : EasContext) : option DirectReady :=
  match schemaEncoder state, schema state, easConfig h, rpcSigner h,
        publicClient h, JS.truthyNumber (option_map id (chain h)),
        schemaRecord state with
  | Some encoder, Some fields, Some cfg, Some signer, Some client,
    Some chainId, Some record =>
      if SchemaRecord.revocable record then
        Some {| dr_schemaEncoder := encoder; dr_schema := fields;
                dr_easConfig := cfg; dr_rpcSigner := signer;
                dr_publicClient := client; dr_chainId := chainId;
                dr_schemaRecord := record |}
      else None
  | _, _, _, _, _, _, _ => None
  end.

Definition missingDirect : Error :=
  {| message := "Missing schemaEncoder, schema, easConfig, rpcSigner or publicClient" |}.

Definition createAttestations (state : EasContext) : M unit :=
  tryCatch
    (match directPreconditions state with
     | None => throw missingDirect
     | Some r =>
         setState (with_transactionStatus (Some Creating)) ;;;
         request <- perform (CreateMultiAttestRequest (csv h))
                      (createMultiAttestRequest x (csv h) (schemaUid state)
                         (dr_schema r) (dr_schemaEncoder r)
                         (SchemaRecord.revocable (dr_schemaRecord r))
                         (dr_publicClient r)) ;;
         setState (with_transactionStatus (Some Attesting)) ;;;
         transaction <- perform (MultiAttest [request])
                          (multiAttest x (address (dr_easConfig r))
                             (dr_rpcSigner r) [request]) ;;
         let event := attestationCreated (dr_chainId r)
                        (List.length (MultiAttestRequest.data request)) in
         perform (TrackEvent event) (trackEvent x event) ;;;
         setState (fun prev =>
           with_transaction (Some transaction)
             (with_transactionStatus (Some WaitUid) prev)) ;;;
         uid <- perform Wait (wait x transaction) ;;
         setState (fun prev =>
           with_attestationUids (Some uid)
             (with_transactionStatus (Some Success) prev))
     end)
    (fun e =>
       setState (fun prev =>
         with_transactionError (Some e)
           (with_transactionStatus (Some TxError) prev))).

Definition resetTransactions : M unit :=
  setState (fun prev =>
    with_attestationUids None
      (with_transactionStatus None
         (with_transactionError None
            (with_transaction None
               (with_safeTransactionState None prev))))).

(** ** What the specification says the resolver yields *)

(** One declaration of the schema string, kept when its type name is
    recognized. *)
Definition recognized (field : string) : list SchemaField :=
  match destructureField field with
  | (Some type, name) =>
      if isSchemaFieldTypeName x type then [{| name := name; type := type |}] else []
  | (None, _) => []
  end.

(** The parsed fields whose type names are recognized, in declared order. *)
Definition recognizedFields (schema : string) : list SchemaField :=
  flat_map recognized (JS.split "," schema).

(** Recognized fields, then [refUID] in refUID mode, then [recipient]. *)
Definition resolvedFieldList (schema : string) : list SchemaField :=
  recognizedFields schema
    ++ (if includeRefUid h then [refUIDField] else [])
    ++ [recipientField].

(** ** What one included row contributes to a batch *)

Definition requestFor (fields : list SchemaField) (encoder : SchemaEncoder)
    (client : PublicClient) (record : SchemaRecord.t) (row : list string)
  : Error + AttestationRequestData :=
  match encodeRow x row fields encoder with
  | inl e => inl e
  | inr encodedData =>
      match processRecipient x (recipientCell row) client with
      | inl e => inl e
      | inr address =>
          inr {| recipient := address;
                 expirationTime := 0;
                 revocable := SchemaRecord.revocable record;
                 refUID := refUIDCell row;
                 data := encodedData;
                 value := 0 |}
      end
  end.

(** The rows that pass the well-formedness check, in row order. *)
Definition includedRows (fields : list SchemaField) (parsedCsv : list (list string))
  : list (list string) :=
  filter (fun row => shouldIncludeRow x row fields) parsedCsv.

Definition excludedRows (fields : list SchemaField) (parsedCsv : list (list string))
  : list (list string) :=
  filter (fun row => negb (shouldIncludeRow x row fields)) parsedCsv.

(** The calls one included row makes, and the cells a run has handed to
    [processRecipient]. *)
Definition rowEffects (row : list string) : list Effect :=
  [EncodeRow row; ProcessRecipient (recipientCell row)].

Definition resolvedCells (made : list Effect) : list (option string) :=
  flat_map (fun e => match e with ProcessRecipient cell => [cell] | _ => [] end) made.

(** The cell the specification names as the recipient's: the last one,
    or the one before it when there is a reference UID column. *)
Definition statedRecipientCell (row : list string) : option string :=
  if includeRefUid h then JS.index row (JS.length row - 2)
  else JS.index row (JS.length row - 1).

End Operations.

(** ** A concrete provider, to run the operations on *)

Module Demo.

Definition typeNames : list string :=
  ["address"; "string"; "bool"; "bytes32"; "bytes"; "uint8"; "uint256"].

Definition knownType (t : string) : bool := existsb (String.eqb t) typeNames.

(** Rows are lines, cells are separated by commas and trimmed. *)
Definition parseLines (csv : string) : list (list string) :=
  map (fun line => map JS.trim (JS.split "," line)) (JS.split "010" csv).

Definition resolve (cell : option string) : Error + string :=
  match cell with
  | Some (String c r) => inr (String c r)
  | _ => inl {| message := "no recipient" |}
  end.

Definition knownSchema (s : string) : bool :=
  forallb (fun f => match destructureField f with
                    | (Some t, _) => knownType t
                    | _ => false
                    end) (JS.split "," s).

(** Two registered schemas: the second declares a type that is not one. *)
Definition registry (uid : string) : Error + SchemaRecord.t :=
  if String.eqb uid "0xgood" then
    inr {| SchemaRecord.schema := "string note"; SchemaRecord.revocable := true |}
  else if String.eqb uid "0xbad" then
    inr {| SchemaRecord.schema := "foo bar"; SchemaRecord.revocable := true |}
  else inl {| message := "schema not found" |}.

Definition externals (track : AnalyticsEvent -> Error + TrackResult) : Externals :=
  {| isSchemaFieldTypeName := knownType;
     getSchema := fun _ _ uid => registry uid;
     newSchemaEncoder := fun s =>
       if knownSchema s then inr (SchemaEncoderRef (String.length s))
       else inl {| message := "bad schema" |};
     parse := fun csv => inr (parseLines csv);
     shouldIncludeRow := fun row fields => (List.length row =? List.length fields)%nat;
     encodeRow := fun row _ _ => inr (String.concat "|" row);
     processRecipient := fun cell _ => resolve cell;
     encodeFunctionData := fun _ req =>
       inr (String.concat ";" (map data (MultiAttestRequest.data req)));
     createTransaction := fun _ txs => inr (SafeTransactionRef (List.length txs));
     getAddress := fun _ => inr "0xSigner";
     getTransactionHash := fun _ _ => inr "0xhash";
     signTransaction := fun _ tx => inr tx;
     getSignature := fun _ who =>
       Some {| SafeSignature.signer := who; SafeSignature.data := "0xsig" |};
     proposeTransaction := fun _ _ => inr tt;
     trackEvent := track;
     createMultiAttestRequest := fun _ uid _ _ _ _ =>
       inr {| MultiAttestRequest.schema := uid; MultiAttestRequest.data := [] |};
     multiAttest := fun _ _ reqs => inr (ContractTransactionRef (List.length reqs));
     wait := fun _ => inr ["0xuid"] |}.

Definition trackOk (_ : AnalyticsEvent) : Error + TrackResult := inr (TrackResultRef 0).
Definition trackThrows (_ : AnalyticsEvent) : Error + TrackResult :=
  inl {| message := "plausible is not reachable" |}.

Definition hooksFor (uid : string) (signer : option Signer) (csv : string)
    (includeRefUid : bool) : Hooks :=
  {| props_schemaUid := uid;
     safeAddress := Some "0xSafe";
     safe := Some (SafeRef 0);
     safeApiKit := Some (SafeApiKitRef 0);
     chain := Some {| id := 11155111 |};
     easConfig := Some {| address := "0xEAS"; registryAddress := "0xRegistry" |};
     rpcProvider := Some (ProviderRef 0);
     rpcSigner := signer;
     publicClient := Some (PublicClientRef 0);
     csv := csv;
     includeRefUid := includeRefUid |}.

Definition hooks (csv : string) (includeRefUid : bool) : Hooks :=
  hooksFor "0xgood" (Some (SignerRef 0)) csv includeRefUid.

(** No wallet connected. *)
Definition hooksWithoutSigner : Hooks := hooksFor "0xgood" None "hello,0xalice" false.

(** The two effects that follow a render in which [state.schemaRecord]
    has changed; both close over the state of that render. *)
Definition afterRender (x : Externals) (h : Hooks) (w : World) : World :=
  let state := store w in
  let w1 := snd (createSchemaFromRecord x h state w) in
  snd (initSchemaEncoder x state w1).

(** The provider mounted for one schema identifier, its record loaded. *)
Definition mounted (x : Externals) (h : Hooks) : World :=
  afterRender x h (snd (loadSchemaRecord x h (fresh (initialState (props_schemaUid h))))).

(** The same provider after its [schemaUid] prop changed. *)
Definition rerendered (x : Externals) (h : Hooks) (w : World) : World :=
  afterRender x h (snd (loadSchemaRecord x h w)).

Definition badHooks : Hooks := hooksFor "0xbad" (Some (SignerRef 0)) "0xalice" false.

(** Mounted on the good schema, then pointed at the bad one. *)
Definition afterSchemaChange : World :=
  rerendered (externals trackOk) badHooks
    (mounted (externals trackOk) (hooks "0xalice" false)).

(** Three rows for a [string note] schema; the second has one cell. *)
Definition threeRows : string :=
  "hello,0xalice" ++ String "010" "orphan" ++ String "010" "again,0xbob".

Definition noteState : EasContext :=
  with_schemaEncoder (Some (SchemaEncoderRef 0))
    (with_schema
       (Some [{| name := Some "note"; type := "string" |}; recipientField])
       (with_schemaRecord
          (Some {| SchemaRecord.schema := "string note";
                   SchemaRecord.revocable := true |})
          (initialState "0xgood"))).

Definition noteRefState : EasContext :=
  with_schema
    (Some [{| name := Some "note"; type := "string" |}; refUIDField; recipientField])
    noteState.

Definition lockedState : EasContext :=
  with_schemaRecord
    (Some {| SchemaRecord.schema := "string note"; SchemaRecord.revocable := false |})
    noteState.

Definition sdk : Externals := externals trackOk.
Definition offline : Externals := externals trackThrows.

Definition rowsHooks : Hooks := hooks threeRows false.
Definition refHooks : Hooks := hooks "hello,0xref,0xalice" true.

Definition rows : list (list string) :=
  [["hello"; "0xalice"]; ["orphan"]; ["again"; "0xbob"]].

Definition refRow : list string := ["hello"; "0xref"; "0xalice"].

Definition forAlice : AttestationRequestData :=
  {| recipient := "0xalice"; expirationTime := 0; revocable := true;
     refUID := Some ZERO_BYTES32; data := "hello|0xalice"; value := 0 |}.

Definition forBob : AttestationRequestData :=
  {| recipient := "0xbob"; expirationTime := 0; revocable := true;
     refUID := Some ZERO_BYTES32; data := "again|0xbob"; value := 0 |}.

Definition twoRequests : MultiAttestRequest.t :=
  {| MultiAttestRequest.schema := "0xgood";
     MultiAttestRequest.data := [forAlice; forBob] |}.

Definition refRequest : MultiAttestRequest.t :=
  {| MultiAttestRequest.schema := "0xgood";
     MultiAttestRequest.data :=
       [{| recipient := "0xalice"; expirationTime := 0; revocable := true;
           refUID := Some "0xref"; data := "hello|0xref|0xalice"; value := 0 |}] |}.

End Demo.

(** [state.schemaRecord?.revocable] as the guards test it: [undefined]
    is falsy. *)
Definition flagOf (state : EasContext) : bool :=
  match schemaRecord state with
  | Some record => SchemaRecord.revocable record
  | None => false
  end.

(** ** The status machine of a direct submission *)



(** The statuses a run wrote, oldest first; a write of [undefined] would
    show as [None]. *)
Definition statusTrace (w : World) : list (option TransactionStatus) :=
  map transactionStatus (history w).

(** ** More concrete runs *)

Module Sample.

(** Three rows; the second has an empty recipient cell, which
    [Demo.resolve] does not resolve. *)
Definition brokenCsv : string :=
  "hello,0xalice" ++ String "010" "oops," ++ String "010" "again,0xbob".

Definition brokenHooks : Hooks := Demo.hooks brokenCsv false.

Definition emptyHooks : Hooks := Demo.hooks "" false.

Definition unknownHooks : Hooks :=
  Demo.hooksFor "0xnone" (Some (SignerRef 0)) "hello,0xalice" false.

Definition notFound : Error := {| message := "schema not found" |}.

Definition noRecipient : Error := {| message := "no recipient" |}.

Definition noteRecord : SchemaRecord.t :=
  {| SchemaRecord.schema := "string note"; SchemaRecord.revocable := true |}.

Definition mixedRecord : SchemaRecord.t :=
  {| SchemaRecord.schema := "foo bar, string note,baz qux";
     SchemaRecord.revocable := true |}.

Definition mixedState : EasContext :=
  with_schemaRecord (Some mixedRecord) (initialState "0xgood").

Definition noteReady : SafeReady :=
  {| sr_rpcSigner := SignerRef 0; sr_safeAddress := "0xSafe"; sr_safe := SafeRef 0;
     sr_safeApiKit := SafeApiKitRef 0; sr_schemaEncoder := SchemaEncoderRef 0;
     sr_schema := [{| name := Some "note"; type := "string" |}; recipientField];
     sr_easConfig := {| address := "0xEAS"; registryAddress := "0xRegistry" |};
     sr_publicClient := PublicClientRef 0; sr_chainId := 11155111;
     sr_schemaRecord := noteRecord |}.

Definition safeEvent : AnalyticsEvent :=
  {| eventName := "attestation-created"; props_chain := 11155111;
     props_wallet := "safe"; props_schema := "0xgood";
     props_attestationCount := 2 |}.

Definition directEvent : AnalyticsEvent :=
  {| eventName := "attestation-created"; props_chain := 11155111;
     props_wallet := "safe"; props_schema := "0xgood";
     props_attestationCount := 0 |}.

(** A state left by an earlier failed direct attempt, and one left by an
    earlier successful one. *)
Definition afterFailure : EasContext :=
  with_transactionError (Some noRecipient)
    (with_transactionStatus (Some TxError) Demo.noteState).

Definition afterSuccess : EasContext :=
  with_attestationUids (Some ["0xold"])
    (with_transaction (Some (ContractTransactionRef 9))
       (with_transactionStatus (Some Success) Demo.noteState)).

(** A sink that returns and a chain whose [wait] throws. *)
Definition neverMined : Externals :=
  {| isSchemaFieldTypeName := isSchemaFieldTypeName Demo.sdk;
     getSchema := getSchema Demo.sdk;
     newSchemaEncoder := newSchemaEncoder Demo.sdk;
     parse := parse Demo.sdk;
     shouldIncludeRow := shouldIncludeRow Demo.sdk;
     encodeRow := encodeRow Demo.sdk;
     processRecipient := processRecipient Demo.sdk;
     encodeFunctionData := encodeFunctionData Demo.sdk;
     createTransaction := createTransaction Demo.sdk;
     getAddress := getAddress Demo.sdk;
     getTransactionHash := getTransactionHash Demo.sdk;
     signTransaction := signTransaction Demo.sdk;
     getSignature := getSignature Demo.sdk;
     proposeTransaction := proposeTransaction Demo.sdk;
     trackEvent := trackEvent Demo.sdk;
     createMultiAttestRequest := createMultiAttestRequest Demo.sdk;
     multiAttest := multiAttest Demo.sdk;
     wait := fun _ => inl {| message := "transaction reverted" |} |}.

End Sample.

(** ** The provider as a machine

    What can happen to a mounted provider: one of its three effects runs
    after a render, or the user calls one of the three functions of the
    context.  Each closes over the hooks and, where it reads [state], over
    the state of some render. *)

Inductive Action :=
| LoadSchemaRecord
| CreateSchemaFromRecord (state : EasContext)
| InitSchemaEncoder (state : EasContext)
| CreateSafeAttestationsTransaction (state : EasContext)
| CreateAttestations (state : EasContext)
| ResetTransactions.

Definition act (x : Externals) (h : Hooks) (a : Action) : M unit :=
  match a with
  | LoadSchemaRecord => loadSchemaRecord x h
  | CreateSchemaFromRecord state => createSchemaFromRecord x h state
  | InitSchemaEncoder state => initSchemaEncoder x state
  | CreateSafeAttestationsTransaction state => createSafeAttestationsTransaction x h state
  | CreateAttestations state => createAttestations x h state
  | ResetTransactions => resetTransactions
  end.

(** Actions one after the other, each with the hooks of its render. *)
Fixpoint runAll (x : Externals) (steps : list (Hooks * Action)) (w : World) : World :=
  match steps with
  | [] => w
  | (h, a) :: rest => runAll x rest (snd (act x h a w))
  end.

(** The fields of one state fit its status: an error status comes with its
    error, [wait_uid] and [success] with the transaction handle, [success]
    with the attestation UIDs, [signing] with the hash, [created] with hash
    and signature. *)
Definition coherentDirect (s : EasContext) : Prop :=
  (transactionStatus s = Some TxError -> transactionError s <> None)
  /\ (transactionStatus s = Some WaitUid -> transaction s <> None)
  /\ (transactionStatus s = Some Success ->
      transaction s <> None /\ attestationUids s <> None).

Definition coherentSafe (s : EasContext) : Prop :=
  match safeTransactionState s with
  | None => True
  | Some st =>
      match status st with
      | SafeCreating => True
      | SafeSigning => txHash st <> None
      | SafeCreated => txHash st <> None /\ signature st <> None
      | SafeError => error st <> None
      end
  end.

Definition coherent (s : EasContext) : Prop := coherentDirect s /\ coherentSafe s.

(** The Safe statuses a run wrote, oldest first. *)
Definition safeStatusTrace (w : World) : list (option SafeStatus) :=
  map (fun s => option_map status (safeTransactionState s)) (history w).

(** The type name of one declaration, when [createSchemaFromRecord]
    rejects it, and the type names it rejects in a schema string, in
    declared order. *)
Definition rejectedType (x : Externals) (field : string) : list string :=
  match destructureField field with
  | (Some type, _) => if isSchemaFieldTypeName x type then [] else [type]
  | (None, _) => ["undefined"]
  end.

Definition unrecognizedTypes (x : Externals) (schema : string) : list string :=
  flat_map (rejectedType x) (JS.split "," schema).

(** The last error of a list of rejected type names, over what was there. *)
Definition lastInvalid (rejected : list string) (before : option Error) : option Error :=
  match rev rejected with
  | [] => before
  | type :: _ => Some (invalidTypeName type)
  end.

(** The transaction fields, the ones [resetTransactions] clears. *)
Definition transactionFieldsUnset (s : EasContext) : Prop :=
  safeTransactionState s = None /\ transaction s = None
  /\ transactionError s = None /\ transactionStatus s = None
  /\ attestationUids s = None.

(** Two states that differ at most in the transaction fields. *)
Definition sameSchemaFields (s s' : EasContext) : Prop :=
  schemaUid s' = schemaUid s
  /\ schemaRecord s' = schemaRecord s
  /\ schemaRecordIsLoading s' = schemaRecordIsLoading s
  /\ schemaRecordError s' = schemaRecordError s
  /\ schemaError s' = schemaError s
  /\ schema s' = schema s
  /\ schemaEncoder s' = schemaEncoder s
  /\ schemaEncoderError s' = schemaEncoderError s.

(** The states one Safe submission writes, as values of
    [safeTransactionState]: an error alone, or [creating], then [signing]
    with the hash, then [created] with hash and signature, cut short by an
    error at any point. *)
Definition safeWrites (sts : list SafeTransactionState) : Prop :=
  (exists e, sts = [ {| status := SafeError; txHash := None; signature := None;
                        error := Some e |} ])
  \/ (exists e,
        sts = [ {| status := SafeCreating; txHash := None; signature := None;
                   error := None |};
                {| status := SafeError; txHash := None; signature := None;
                   error := Some e |} ])
  \/ (exists hash e,
        sts = [ {| status := SafeCreating; txHash := None; signature := None;
                   error := None |};
                {| status := SafeSigning; txHash := Some hash; signature := None;
                   error := None |};
                {| status := SafeError; txHash := None; signature := None;
                   error := Some e |} ])
  \/ (exists hash sig,
        sts = [ {| status := SafeCreating; txHash := None; signature := None;
                   error := None |};
                {| status := SafeSigning; txHash := Some hash; signature := None;
                   error := None |};
                {| status := SafeCreated; txHash := Some hash; signature := Some sig;
                   error := None |} ]).

(** What a Safe submission started in [w] may leave behind: it returns,
    and every state it wrote is the state it found with only
    [safeTransactionState] replaced. *)
Definition safeOutcome (w : World) (out : (Error + unit) * World) : Prop :=
  fst out = inr tt
  /\ exists front final,
       safeWrites (front ++ [final])
       /\ history (snd out)
          = history w
              ++ map (fun st => with_safeTransactionState (Some st) (store w))
                   (front ++ [final])
       /\ store (snd out) = with_safeTransactionState (Some final) (store w).

(** The states one direct submission writes, starting from [s]: an error
    alone, or [creating], [attesting], [wait_uid] with the transaction,
    [success] with the UIDs, cut short by an error that keeps what was
    written before it. *)
Definition directError (e : Error) (s : EasContext) : EasContext :=
  with_transactionError (Some e) (with_transactionStatus (Some TxError) s).

Definition directWaiting (tx : ContractTransaction) (s : EasContext) : EasContext :=
  with_transaction (Some tx) (with_transactionStatus (Some WaitUid) s).

Definition directWrites (x0 : Externals) (s : EasContext) (written : list EasContext)
  : Prop :=
  (exists e, written = [directError e s])
  \/ (exists e,
        written = [with_transactionStatus (Some Creating) s; directError e s])
  \/ (exists e,
        written = [with_transactionStatus (Some Creating) s;
                   with_transactionStatus (Some Attesting) s;
                   directError e s])
  \/ (exists tx e,
        written = [with_transactionStatus (Some Creating) s;
                   with_transactionStatus (Some Attesting) s;
                   directWaiting tx s;
                   directError e (directWaiting tx s)]
        /\ wait x0 tx = inl e)
  \/ (exists tx uid,
        written = [with_transactionStatus (Some Creating) s;
                   with_transactionStatus (Some Attesting) s;
                   directWaiting tx s;
                   with_attestationUids (Some uid)
                     (with_transactionStatus (Some Success) (directWaiting tx s))]
        /\ wait x0 tx = inr uid).

(** What a direct submission started in [w] may leave behind. *)
Definition directOutcome (x0 : Externals) (w : World) (out : (Error + unit) * World)
  : Prop :=
  fst out = inr tt
  /\ exists front final,
       directWrites x0 (store w) (front ++ [final])
       /\ history (snd out) = history w ++ front ++ [final]
       /\ store (snd out) = final.

(** What no action of the provider undoes, from a state [s] to a later
    state [s']: the schema identifier of the state stays, a field list, an
    encoder and an encoder error stay once they are there, and the state
    stays coherent. *)
Definition keeps (s s' : EasContext) : Prop :=
  schemaUid s' = schemaUid s
  /\ (schema s <> None -> schema s' <> None)
  /\ (schemaEncoder s <> None -> schemaEncoder s' <> None)
  /\ (schemaEncoderError s <> None -> schemaEncoderError s' <> None)
  /\ (coherent s -> coherent s').

(** A string of blanks only, as [trim] sees blanks. *)
Fixpoint allWhiteSpace (s : string) : bool :=
  match s with
  | EmptyString => true
  | String c r => JS.isWhiteSpace c && allWhiteSpace r
  end.

(** [c] occurs in [s]. *)
Fixpoint occurs (c : ascii) (s : string) : bool :=
  match s with
  | EmptyString => false
  | String c' r => Ascii.eqb c' c || occurs c r
  end.

(** * Properties *)

(** ** Strings *)

Lemma split_nonempty (sep : ascii) (s : string) : JS.split sep s <> [].
Proof.
  destruct s as [|c r]; simpl; [discriminate|].
  destruct (Ascii.eqb c sep); [discriminate|].
  destruct (JS.split sep r); discriminate.
Qed.

Lemma split_declares_a_field (s : string) : (1 <= List.length (JS.split "," s))%nat.
Proof.
  pose proof (split_nonempty "," s) as Hne.
  destruct (JS.split "," s); [congruence | simpl; lia].
Qed.

Lemma index_last {A} (a : list A) (c : A) :
  JS.index (a ++ [c]) (JS.length (a ++ [c]) - 1) = Some c.
Proof.
  unfold JS.index, JS.length.
  rewrite length_app; simpl.
  replace (Z.of_nat (List.length a + 1) - 1)%Z with (Z.of_nat (List.length a)) by lia.
  destruct (Z.ltb_spec (Z.of_nat (List.length a)) 0); [lia|].
  rewrite Nat2Z.id, nth_error_app2 by lia.
  now rewrite Nat.sub_diag.
Qed.

Lemma index_before_last {A} (a : list A) (b c : A) :
  JS.index (a ++ [b; c]) (JS.length (a ++ [b; c]) - 2) = Some b.
Proof.
  unfold JS.index, JS.length.
  rewrite length_app; simpl.
  replace (Z.of_nat (List.length a + 2) - 2)%Z with (Z.of_nat (List.length a)) by lia.
  destruct (Z.ltb_spec (Z.of_nat (List.length a)) 0); [lia|].
  rewrite Nat2Z.id, nth_error_app2 by lia.
  now rewrite Nat.sub_diag.
Qed.

Ltac find_in :=
  match goal with
  | |- In _ (_ ++ _) => apply in_or_app; ((left; find_in) || (right; find_in))
  | |- In ?c (?c :: _) => left; reflexivity
  | |- In _ (_ :: _) => right; find_in
  end.

Section Properties.

Variable x : Externals.
Variable h : Hooks.

(** ** The schema resolver *)

Lemma forEachField_pushes (fields : list string) :
  forall (acc : list SchemaField) (w : World),
  exists w',
    forEachField x fields acc w = (inr (acc ++ flat_map (recognized x) fields), w')
    /\ effects w' = effects w.
Proof.
  induction fields as [|field rest IH]; intros acc w; cbn [forEachField flat_map].
  - exists w. now rewrite app_nil_r.
  - unfold recognized at 1.
    destruct (destructureField field) as [[type|] name].
    + destruct (isSchemaFieldTypeName x type).
      * destruct (IH (acc ++ [{| name := name; type := type |}]) w) as (w' & Hrun & Heff).
        exists w'. rewrite Hrun, <- app_assoc. now split.
      * unfold bind at 1, setState at 1. simpl.
        match goal with |- context [forEachField x rest acc ?w1] =>
          destruct (IH acc w1) as (w' & Hrun & Heff) end.
        exists w'. rewrite Hrun. now split.
    + unfold bind at 1, setState at 1. simpl.
      match goal with |- context [forEachField x rest acc ?w1] =>
        destruct (IH acc w1) as (w' & Hrun & Heff) end.
      exists w'. rewrite Hrun. now split.
Qed.

(** C3.  For a fetched schema record (its schema string always declares at
    least one field, [split_declares_a_field]), [createSchemaFromRecord]
    stores as field list exactly the parsed fields with a recognized type
    name, in declared order, then [refUID : bytes32] if and only if refUID
    mode is on, then [recipient : address]; its length is the number of
    recognized fields + (1 in refUID mode) + 1. *)
Theorem createSchemaFromRecord_resolves :
  forall (state : EasContext) (record : SchemaRecord.t) (w : World),
    schemaRecord state = Some record ->
    exists w',
      createSchemaFromRecord x h state w = (inr tt, w')
      /\ schema (store w') = Some (resolvedFieldList x h (SchemaRecord.schema record))
      /\ resolvedFieldList x h (SchemaRecord.schema record)
         = recognizedFields x (SchemaRecord.schema record)
             ++ (if includeRefUid h then [refUIDField] else [])
             ++ [recipientField]
      /\ (In refUIDField
            ((if includeRefUid h then [refUIDField] else []) : list SchemaField)
          <-> includeRefUid h = true)
      /\ List.length (resolvedFieldList x h (SchemaRecord.schema record))
         = (List.length (recognizedFields x (SchemaRecord.schema record))
            + (if includeRefUid h then 1 else 0) + 1)%nat.
Proof.
  intros state record w Hrec.
  unfold createSchemaFromRecord. rewrite Hrec.
  destruct (forEachField_pushes (JS.split "," (SchemaRecord.schema record)) [] w)
    as (w1 & Hrun & _).
  unfold bind. rewrite Hrun. simpl.
  eexists. split; [reflexivity|]. simpl.
  unfold resolvedFieldList, recognizedFields.
  split; [|split; [reflexivity|split]].
  - destruct (includeRefUid h); simpl; [now rewrite <- app_assoc | reflexivity].
  - destruct (includeRefUid h); simpl; intuition discriminate.
  - rewrite !length_app. destruct (includeRefUid h); simpl; lia.
Qed.

(** ** Reset *)

(** C8.  [resetTransactions], in any state, sets [safeTransactionState],
    [transaction], [transactionError], [transactionStatus] and
    [attestationUids] to [undefined] and leaves every other field of the
    state as it was; it calls nothing. *)
Theorem resetTransactions_clears_only_transaction_fields :
  forall w : World,
    exists w',
      resetTransactions w = (inr tt, w')
      /\ safeTransactionState (store w') = None
      /\ transaction (store w') = None
      /\ transactionError (store w') = None
      /\ transactionStatus (store w') = None
      /\ attestationUids (store w') = None
      /\ schemaUid (store w') = schemaUid (store w)
      /\ schemaRecord (store w') = schemaRecord (store w)
      /\ schemaRecordIsLoading (store w') = schemaRecordIsLoading (store w)
      /\ schemaRecordError (store w') = schemaRecordError (store w)
      /\ schemaError (store w') = schemaError (store w)
      /\ schema (store w') = schema (store w)
      /\ schemaEncoder (store w') = schemaEncoder (store w)
      /\ schemaEncoderError (store w') = schemaEncoderError (store w)
      /\ effects w' = effects w.
Proof.
  intros w. unfold resetTransactions, setState.
  eexists. split; [reflexivity|]. simpl. repeat split.
Qed.

(** ** The batch loop *)

Lemma requestFor_inr fields encoder client record row d :
  requestFor x h fields encoder client record row = inr d ->
  exists encodedData address,
    encodeRow x row fields encoder = inr encodedData
    /\ processRecipient x (recipientCell row) client = inr address
    /\ d = {| recipient := address; expirationTime := 0;
              revocable := SchemaRecord.revocable record;
              refUID := refUIDCell h row; data := encodedData; value := 0 |}.
Proof.
  unfold requestFor.
  destruct (encodeRow x row fields encoder) as [e|encodedData]; [discriminate|].
  destruct (processRecipient x (recipientCell row) client) as [e|address];
    [discriminate|].
  intros [= <-]. now exists encodedData, address.
Qed.

Lemma resolvedCells_app (a b : list Effect) :
  resolvedCells (a ++ b) = resolvedCells a ++ resolvedCells b.
Proof. unfold resolvedCells. apply flat_map_app. Qed.

Lemma resolvedCells_rows (rows : list (list string)) :
  resolvedCells (flat_map rowEffects rows) = map recipientCell rows.
Proof.
  induction rows as [|row rest IH]; [reflexivity|].
  cbn [flat_map map]. rewrite resolvedCells_app, IH. reflexivity.
Qed.

(** A run of the loop that returns has pushed one request per included
    row, in row order, after what was in the array; it has called
    [encodeRow] and [processRecipient] once per included row and has left
    the component state alone. *)
Lemma requestLoop_returns fields encoder client record (parsedCsv : list (list string)) :
  forall (acc out : list AttestationRequestData) (w w' : World),
    requestLoop x h fields encoder client record parsedCsv acc w = (inr out, w') ->
    exists pushed,
      out = acc ++ pushed
      /\ Forall2 (fun row d => requestFor x h fields encoder client record row = inr d)
           (includedRows x fields parsedCsv) pushed
      /\ store w' = store w
      /\ history w' = history w
      /\ effects w' = effects w ++ flat_map rowEffects (includedRows x fields parsedCsv).
Proof.
  induction parsedCsv as [|row rest IH]; intros acc out w w'.
  - cbn. intros [= <- <-]. exists []. rewrite !app_nil_r. repeat split. constructor.
  - cbn [requestLoop includedRows filter].
    destruct (shouldIncludeRow x row fields) eqn:Hinc; cbn [negb].
    + unfold bind at 1, perform at 1.
      destruct (encodeRow x row fields encoder) as [e|encodedData] eqn:Henc;
        [discriminate|].
      unfold bind at 1, perform at 1.
      destruct (processRecipient x (recipientCell row) client) as [e|address] eqn:Hrcp;
        [discriminate|].
      intros Hrun. apply IH in Hrun.
      destruct Hrun as (pushed & -> & Hall & Hst & Hhist & Heff). cbn in Hst, Hhist, Heff.
      eexists (_ :: pushed). rewrite <- app_assoc. split; [reflexivity|].
      split; [|split; [assumption|split; [assumption|]]].
      * constructor; [|exact Hall].
        unfold requestFor. now rewrite Henc, Hrcp.
      * rewrite Heff. unfold includedRows. cbn [flat_map rowEffects].
        now rewrite <- !app_assoc.
    + intros Hrun. apply IH in Hrun. exact Hrun.
Qed.

(** The cells such a run has handed to [processRecipient] are the last
    cells of the included rows. *)
Lemma requestLoop_resolves_last_cells fields encoder client record
    (parsedCsv : list (list string)) (acc out : list AttestationRequestData)
    (w w' : World) :
  requestLoop x h fields encoder client record parsedCsv acc w = (inr out, w') ->
  resolvedCells (effects w')
  = resolvedCells (effects w)
      ++ map (fun row => JS.index row (JS.length row - 1))
           (includedRows x fields parsedCsv).
Proof.
  intros Hrun. apply requestLoop_returns in Hrun.
  destruct Hrun as (_ & _ & _ & _ & _ & ->).
  now rewrite resolvedCells_app, resolvedCells_rows.
Qed.

(** The loop returns when every included row encodes and resolves. *)
Lemma requestLoop_total fields encoder client record (parsedCsv : list (list string)) :
  (forall row, In row (includedRows x fields parsedCsv) ->
     exists d, requestFor x h fields encoder client record row = inr d) ->
  forall (acc : list AttestationRequestData) (w : World),
    exists out w',
      requestLoop x h fields encoder client record parsedCsv acc w = (inr out, w').
Proof.
  induction parsedCsv as [|row rest IH]; intros Hok acc w.
  - now exists acc, w.
  - cbn [requestLoop]. cbn [includedRows filter] in Hok.
    destruct (shouldIncludeRow x row fields) eqn:Hinc; cbn [negb].
    + destruct (Hok row (or_introl eq_refl)) as (d & Hd).
      apply requestFor_inr in Hd.
      destruct Hd as (encodedData & address & Henc & Hrcp & _).
      unfold bind at 1, perform at 1. rewrite Henc.
      unfold bind at 1, perform at 1. rewrite Hrcp.
      apply IH. intros r Hr. apply Hok. now right.
    + apply IH. exact Hok.
Qed.

Lemma included_excluded_partition fields (parsedCsv : list (list string)) :
  List.length parsedCsv
  = (List.length (includedRows x fields parsedCsv)
     + List.length (excludedRows x fields parsedCsv))%nat.
Proof.
  unfold includedRows, excludedRows.
  induction parsedCsv as [|row rest IH]; [reflexivity|].
  cbn [filter]. destruct (shouldIncludeRow x row fields); cbn [negb List.length]; lia.
Qed.

Lemma safePreconditions_Some state r :
  safePreconditions h state = Some r ->
  schemaRecord state = Some (sr_schemaRecord r)
  /\ SchemaRecord.revocable (sr_schemaRecord r) = true
  /\ schema state = Some (sr_schema r)
  /\ schemaEncoder state = Some (sr_schemaEncoder r)
  /\ publicClient h = Some (sr_publicClient r).
Proof.
  unfold safePreconditions.
  destruct (rpcSigner h), (JS.truthyString (safeAddress h)), (safe h), (safeApiKit h),
    (schemaEncoder state), (schema state), (easConfig h), (publicClient h),
    (JS.truthyNumber (option_map id (chain h))), (schemaRecord state) as [record|];
    try discriminate.
  destruct (SchemaRecord.revocable record) eqn:Hrev; [|discriminate].
  intros [= <-]. cbn. now rewrite Hrev.
Qed.

Lemma requestLoop_calls fields encoder client record (parsedCsv : list (list string)) :
  forall (acc : list AttestationRequestData) (w : World) (c : Effect),
    In c (effects (snd (requestLoop x h fields encoder client record parsedCsv acc w))) ->
    In c (effects w) \/ (exists row, c = EncodeRow row) \/ (exists cell, c = ProcessRecipient cell).
Proof.
  induction parsedCsv as [|row rest IH]; intros acc w c; cbn [requestLoop].
  - cbn. now left.
  - destruct (shouldIncludeRow x row fields); cbn [negb]; [|apply IH].
    unfold bind at 1, perform at 1.
    destruct (encodeRow x row fields encoder) as [e|encodedData].
    + cbn. rewrite in_app_iff. cbn. intros [Hc|[<-|[]]]; eauto.
    + unfold bind at 1, perform at 1.
      destruct (processRecipient x (recipientCell row) client) as [e|address].
      * cbn. rewrite !in_app_iff. cbn. intros [[Hc|[<-|[]]]|[<-|[]]]; eauto.
      * intros Hc. apply IH in Hc. cbn in Hc. rewrite !in_app_iff in Hc. cbn in Hc.
        destruct Hc as [[[Hc|[<-|[]]]|[<-|[]]]|Hc]; eauto.
Qed.

Lemma no_batch_in_rowEffects (rows : list (list string)) (request : MultiAttestRequest.t) :
  In (EncodeFunctionData request) (flat_map rowEffects rows) -> False.
Proof.
  rewrite in_flat_map. intros (row & _ & [[=]|[[=]|[]]]).
Qed.

(** The request a Safe submission hands to [encodeFunctionData] carries
    the result of the loop, run on the parsed CSV with the field list,
    encoder and record of the captured state. *)
Lemma createSafeAttestationsTransaction_request state s request :
  In (EncodeFunctionData request)
     (effects (snd (createSafeAttestationsTransaction x h state (fresh s)))) ->
  exists r parsedCsv w w',
    safePreconditions h state = Some r
    /\ parse x (csv h) = inr parsedCsv
    /\ requestLoop x h (sr_schema r) (sr_schemaEncoder r) (sr_publicClient r)
         (sr_schemaRecord r) parsedCsv [] w
       = (inr (MultiAttestRequest.data request), w')
    /\ MultiAttestRequest.schema request = props_schemaUid h.
Proof.
  unfold createSafeAttestationsTransaction, tryCatch.
  destruct (safePreconditions h state) as [r|] eqn:Hpre; [|cbn; tauto].
  unfold bind at 1, setState at 1. cbn [fresh store history effects].
  unfold bind at 1, parseCsv, perform at 1. cbn [store history effects].
  destruct (parse x (csv h)) as [e|parsedCsv] eqn:Hparse.
  { cbn. intros [[=]|[]]. }
  unfold bind at 1.
  match goal with |- context [requestLoop x h ?f ?e ?c ?rc parsedCsv [] ?w1] =>
    set (w0 := w1); 
    destruct (requestLoop x h f e c rc parsedCsv [] w0) as [[e1|requestData] w2] eqn:Hloop
  end.
  { cbn [snd setState effects]. intros Hin.
    pose proof (requestLoop_calls (sr_schema r) (sr_schemaEncoder r) (sr_publicClient r)
                  (sr_schemaRecord r) parsedCsv [] w0 (EncodeFunctionData request)) as Hc.
    rewrite Hloop in Hc. destruct (Hc Hin) as [Hw|[[row [=]]|[cell [=]]]].
    subst w0. cbn in Hw. destruct Hw as [[=]|[]]. }
  intros Hin.
  assert (Hreq : request = {| MultiAttestRequest.schema := props_schemaUid h;
                              MultiAttestRequest.data := requestData |}).
  { destruct (requestLoop_returns _ _ _ _ _ _ _ _ _ Hloop) as (pushed & _ & _ & _ & _ & Heff).
    subst w0. cbn [effects app] in Heff.
    unfold bind, perform, setState, throw in Hin.
    repeat match type of Hin with
           | context [match ?e with inl _ => _ | inr _ => _ end] =>
               destruct e eqn:?; cbn in Hin
           | context [match ?e with Some _ => _ | None => _ end] =>
               destruct e eqn:?; cbn in Hin
           end;
    rewrite Heff in Hin;
    repeat match goal with
           | H : _ \/ _ |- _ => destruct H
           | H : In _ (_ ++ _) |- _ => apply in_app_or in H
           | H : In _ (flat_map rowEffects _) |- _ => apply no_batch_in_rowEffects in H
           | H : In _ [] |- _ => destruct H
           | H : In _ (_ :: _) |- _ => destruct H
           | H : False |- _ => destruct H
           | H : EncodeFunctionData _ = EncodeFunctionData _ |- _ =>
               injection H as <-; reflexivity
           | H : _ = EncodeFunctionData _ |- _ => discriminate H
           end. }
  subst request. exists r, parsedCsv, w0, w2. now repeat split.
Qed.

(** A Safe submission whose guard passes, whose CSV parses and whose
    included rows all encode and resolve does hand a request over. *)
Lemma createSafeAttestationsTransaction_assembles state s r parsedCsv :
  safePreconditions h state = Some r ->
  parse x (csv h) = inr parsedCsv ->
  (forall row, In row (includedRows x (sr_schema r) parsedCsv) ->
     exists d, requestFor x h (sr_schema r) (sr_schemaEncoder r) (sr_publicClient r)
                 (sr_schemaRecord r) row = inr d) ->
  exists request,
    In (EncodeFunctionData request)
       (effects (snd (createSafeAttestationsTransaction x h state (fresh s)))).
Proof.
  intros Hpre Hparse Hrows.
  unfold createSafeAttestationsTransaction, tryCatch. rewrite Hpre.
  unfold bind at 1, setState at 1. cbn [fresh store history effects].
  unfold bind at 1, parseCsv, perform at 1. cbn [store history effects]. rewrite Hparse.
  unfold bind at 1.
  match goal with |- context [requestLoop x h ?f ?e ?c ?rc parsedCsv [] ?w1] =>
    destruct (requestLoop_total f e c rc parsedCsv Hrows [] w1)
      as (requestData & w2 & Hloop); rewrite Hloop
  end.
  exists {| MultiAttestRequest.schema := props_schemaUid h;
            MultiAttestRequest.data := requestData |}.
  unfold bind, perform, setState, throw.
  repeat match goal with
         | |- context [match ?e with inl _ => _ | inr _ => _ end] =>
             destruct e eqn:?; cbn
         | |- context [match ?e with Some _ => _ | None => _ end] =>
             destruct e eqn:?; cbn
         end; find_in.
Qed.

Lemma Forall2_length_eq {A B} (R : A -> B -> Prop) (l : list A) (l' : list B) :
  Forall2 R l l' -> List.length l = List.length l'.
Proof. induction 1; cbn; congruence. Qed.

(** C2.  A Safe submission whose CSV parses into N rows, K of them passing
    [shouldIncludeRow] against the resolved field list and M not, hands to
    [encodeFunctionData] only a batch of exactly K entries, the i-th built
    from the i-th passing row (so none from a row that does not pass); and
    when the guard passes and each passing row encodes and resolves, it
    does hand over a batch. *)
Theorem batch_has_one_entry_per_well_formed_row :
  forall (state s : EasContext) (fields : list SchemaField)
         (parsedCsv : list (list string)) (K M : nat),
    schema state = Some fields ->
    parse x (csv h) = inr parsedCsv ->
    K = List.length (includedRows x fields parsedCsv) ->
    M = List.length (excludedRows x fields parsedCsv) ->
    List.length parsedCsv = (K + M)%nat
    /\ (forall request,
          In (EncodeFunctionData request)
             (effects (snd (createSafeAttestationsTransaction x h state (fresh s)))) ->
          List.length (MultiAttestRequest.data request) = K
          /\ exists encoder client record,
               schemaEncoder state = Some encoder
               /\ publicClient h = Some client
               /\ schemaRecord state = Some record
               /\ Forall2
                    (fun row d =>
                       requestFor x h fields encoder client record row = inr d)
                    (includedRows x fields parsedCsv)
                    (MultiAttestRequest.data request))
    /\ (forall r,
          safePreconditions h state = Some r ->
          (forall row, In row (includedRows x fields parsedCsv) ->
             exists d, requestFor x h fields (sr_schemaEncoder r) (sr_publicClient r)
                         (sr_schemaRecord r) row = inr d) ->
          exists request,
            In (EncodeFunctionData request)
               (effects (snd (createSafeAttestationsTransaction x h state (fresh s))))).
Proof.
  intros state s fields parsedCsv K M Hfields Hparse -> ->.
  split; [apply included_excluded_partition|split].
  - intros request Hin.
    destruct (createSafeAttestationsTransaction_request _ _ _ Hin)
      as (r & rows & w & w' & Hpre & Hparse' & Hloop & _).
    destruct (safePreconditions_Some _ _ Hpre) as (Hrec & _ & Hf & Henc & Hclient).
    assert (sr_schema r = fields) as Hsame by congruence.
    assert (rows = parsedCsv) as -> by congruence.
    rewrite Hsame in Hloop.
    destruct (requestLoop_returns _ _ _ _ _ _ _ _ _ Hloop)
      as (pushed & Hout & Hall & _).
    cbn in Hout. rewrite Hout.
    split; [symmetry; eapply Forall2_length_eq; exact Hall|].
    exists (sr_schemaEncoder r), (sr_publicClient r), (sr_schemaRecord r).
    repeat (split; [assumption|]). exact Hall.
  - intros r Hpre Hrows.
    destruct (safePreconditions_Some _ _ Hpre) as (_ & _ & Hf & _).
    assert (sr_schema r = fields) as Hsame by congruence.
    apply (createSafeAttestationsTransaction_assembles state s r parsedCsv Hpre Hparse).
    now rewrite Hsame.
Qed.

(** C7.  Every request of a batch a Safe submission hands over has
    [expirationTime] 0 and [value] 0, has as [revocable] the flag of the
    schema record of the state, and has the 32-byte zero hash as [refUID]
    whenever refUID mode is off. *)
Theorem request_constant_fields :
  forall (state s : EasContext) (request : MultiAttestRequest.t)
         (d : AttestationRequestData),
    In (EncodeFunctionData request)
       (effects (snd (createSafeAttestationsTransaction x h state (fresh s)))) ->
    In d (MultiAttestRequest.data request) ->
    exists record,
      schemaRecord state = Some record
      /\ expirationTime d = 0%Z
      /\ value d = 0%Z
      /\ revocable d = SchemaRecord.revocable record
      /\ (includeRefUid h = false -> refUID d = Some ZERO_BYTES32).
Proof.
  intros state s request d Hin Hd.
  destruct (createSafeAttestationsTransaction_request _ _ _ Hin)
    as (r & rows & w & w' & Hpre & _ & Hloop & _).
  destruct (safePreconditions_Some _ _ Hpre) as (Hrec & _).
  destruct (requestLoop_returns _ _ _ _ _ _ _ _ _ Hloop)
    as (pushed & Hout & Hall & _).
  cbn in Hout. rewrite Hout in Hd.
  exists (sr_schemaRecord r). split; [exact Hrec|].
  clear Hloop Hout.
  induction Hall as [|row d' rows' pushed' Hrow _ IH]; [destruct Hd|].
  destruct Hd as [->|Hd]; [|exact (IH Hd)].
  apply requestFor_inr in Hrow.
  destruct Hrow as (encodedData & address & _ & _ & ->). cbn.
  repeat split. intros Hoff. unfold refUIDCell. now rewrite Hoff.
Qed.

(** C1, as the code has it.  In every batch a Safe submission hands over,
    the recipient of the request built from an included row is what
    [processRecipient] made of the last cell of that row, with or without
    a reference UID column; with one, the cell before the last is the
    request's [refUID].  ([index_last] and [index_before_last] read the two
    index expressions of the source as the last and second-to-last cell.) *)
Theorem recipient_is_last_cell :
  forall (state s : EasContext) (request : MultiAttestRequest.t),
    In (EncodeFunctionData request)
       (effects (snd (createSafeAttestationsTransaction x h state (fresh s)))) ->
    exists fields client parsedCsv,
      schema state = Some fields
      /\ publicClient h = Some client
      /\ parse x (csv h) = inr parsedCsv
      /\ Forall2
           (fun row d =>
              processRecipient x (JS.index row (JS.length row - 1)) client
              = inr (recipient d)
              /\ (includeRefUid h = true ->
                  refUID d = JS.index row (JS.length row - 2)))
           (includedRows x fields parsedCsv) (MultiAttestRequest.data request).
Proof.
  intros state s request Hin.
  destruct (createSafeAttestationsTransaction_request _ _ _ Hin)
    as (r & rows & w & w' & Hpre & Hparse & Hloop & _).
  destruct (safePreconditions_Some _ _ Hpre) as (_ & _ & Hf & _ & Hclient).
  destruct (requestLoop_returns _ _ _ _ _ _ _ _ _ Hloop)
    as (pushed & Hout & Hall & _).
  cbn in Hout. rewrite Hout.
  exists (sr_schema r), (sr_publicClient r), rows.
  repeat (split; [assumption|]).
  clear Hloop Hout.
  induction Hall as [|row d rows' pushed' Hrow _ IH]; constructor; [|exact IH].
  apply requestFor_inr in Hrow.
  destruct Hrow as (encodedData & address & _ & Hrcp & ->). cbn.
  split; [exact Hrcp|]. intros Hon. unfold refUIDCell. now rewrite Hon.
Qed.

(** ** The guards *)

Lemma safePreconditions_None_iff state :
  safePreconditions h state = None <->
  (rpcSigner h = None \/ JS.truthyString (safeAddress h) = None \/ safe h = None
   \/ safeApiKit h = None \/ schemaEncoder state = None \/ schema state = None
   \/ easConfig h = None \/ publicClient h = None
   \/ JS.truthyNumber (option_map id (chain h)) = None
   \/ flagOf state = false).
Proof.
  unfold safePreconditions, flagOf.
  destruct (rpcSigner h), (JS.truthyString (safeAddress h)), (safe h), (safeApiKit h),
    (schemaEncoder state), (schema state), (easConfig h), (publicClient h),
    (JS.truthyNumber (option_map id (chain h))), (schemaRecord state) as [record|];
    try destruct (SchemaRecord.revocable record);
    split; intros H; try reflexivity; try discriminate; try tauto;
    repeat (destruct H as [H|H]; try discriminate H); discriminate H.
Qed.

Lemma directPreconditions_None_iff state :
  directPreconditions h state = None <->
  (schemaEncoder state = None \/ schema state = None \/ easConfig h = None
   \/ rpcSigner h = None \/ publicClient h = None
   \/ JS.truthyNumber (option_map id (chain h)) = None
   \/ flagOf state = false).
Proof.
  unfold directPreconditions, flagOf.
  destruct (schemaEncoder state), (schema state), (easConfig h), (rpcSigner h),
    (publicClient h), (JS.truthyNumber (option_map id (chain h))),
    (schemaRecord state) as [record|];
    try destruct (SchemaRecord.revocable record);
    split; intros H; try reflexivity; try discriminate; try tauto;
    repeat (destruct H as [H|H]; try discriminate H); discriminate H.
Qed.

(** What a submission does when its guard throws: the [catch] block
    records the error, and that is all. *)
Lemma createSafeAttestationsTransaction_guard state w :
  safePreconditions h state = None ->
  createSafeAttestationsTransaction x h state w
  = (inr tt,
     {| store := with_safeTransactionState
                   (safeState SafeError None None (Some missingSafe)) (store w);
        history := history w
                   ++ [with_safeTransactionState
                         (safeState SafeError None None (Some missingSafe)) (store w)];
        effects := effects w |}).
Proof.
  intros Hpre. unfold createSafeAttestationsTransaction, tryCatch.
  now rewrite Hpre.
Qed.

Lemma createAttestations_guard state w :
  directPreconditions h state = None ->
  createAttestations x h state w
  = (inr tt,
     {| store := with_transactionError (Some missingDirect)
                   (with_transactionStatus (Some TxError) (store w));
        history := history w
                   ++ [with_transactionError (Some missingDirect)
                         (with_transactionStatus (Some TxError) (store w))];
        effects := effects w |}).
Proof.
  intros Hpre. unfold createAttestations, tryCatch.
  now rewrite Hpre.
Qed.

(** C4, as the code has it.  When one of the operands of the guard of
    [createSafeAttestationsTransaction] is missing, the operation makes no
    call at all and never enters [creating]; its [catch] block records the
    failure, so [safeTransactionState] becomes
    [{ status: "error", error }] with the guard's message, and every other
    field of the state stays as it was. *)
Theorem unmet_precondition_records_error :
  forall (state : EasContext) (w : World),
    (rpcSigner h = None \/ JS.truthyString (safeAddress h) = None \/ safe h = None
     \/ safeApiKit h = None \/ schemaEncoder state = None \/ schema state = None
     \/ easConfig h = None \/ publicClient h = None
     \/ JS.truthyNumber (option_map id (chain h)) = None
     \/ flagOf state = false) ->
    exists w',
      createSafeAttestationsTransaction x h state w = (inr tt, w')
      /\ effects w' = effects w
      /\ history w' = history w ++ [store w']
      /\ safeTransactionState (store w')
         = Some {| status := SafeError; txHash := None; signature := None;
                   error := Some {| message :=
                     "Missing signer, safe, safeApiKit or ethersAdapter" |} |}
      /\ store w' = with_safeTransactionState (safeTransactionState (store w'))
                      (store w).
Proof.
  intros state w Hunmet.
  apply safePreconditions_None_iff in Hunmet.
  eexists. split; [apply createSafeAttestationsTransaction_guard, Hunmet|].
  cbn. repeat split.
Qed.

(** C6, as the code has it.  What halts a submission is a missing encoder
    or a missing field list, not a recorded error: when the state has no
    [schemaEncoder] or no [schema], both submission operations end in
    their error state without parsing, encoding or sending anything. *)
Theorem no_encoder_or_schema_halts_submission :
  forall (state : EasContext) (w : World),
    schemaEncoder state = None \/ schema state = None ->
    (exists w1,
       createSafeAttestationsTransaction x h state w = (inr tt, w1)
       /\ effects w1 = effects w
       /\ option_map status (safeTransactionState (store w1)) = Some SafeError)
    /\ (exists w2,
          createAttestations x h state w = (inr tt, w2)
          /\ effects w2 = effects w
          /\ transactionStatus (store w2) = Some TxError).
Proof.
  intros state w Hmissing. split.
  - eexists. split; [apply createSafeAttestationsTransaction_guard|now cbn].
    apply safePreconditions_None_iff. tauto.
  - eexists. split; [apply createAttestations_guard|now cbn].
    apply directPreconditions_None_iff. tauto.
Qed.

(** C10.  When the schema record of the state has [revocable] false, both
    submission operations throw their missing-precondition error before
    anything else: no CSV is parsed, no request is built, nothing is sent,
    and the error state carries the guard's message. *)
Theorem non_revocable_schema_is_never_submitted :
  forall (state : EasContext) (record : SchemaRecord.t) (w : World),
    schemaRecord state = Some record ->
    SchemaRecord.revocable record = false ->
    (exists w1,
       createSafeAttestationsTransaction x h state w = (inr tt, w1)
       /\ effects w1 = effects w
       /\ safeTransactionState (store w1)
          = safeState SafeError None None (Some missingSafe))
    /\ (exists w2,
          createAttestations x h state w = (inr tt, w2)
          /\ effects w2 = effects w
          /\ transactionStatus (store w2) = Some TxError
          /\ transactionError (store w2) = Some missingDirect).
Proof.
  intros state record w Hrec Hflag.
  assert (flagOf state = false) as Hoff by (unfold flagOf; now rewrite Hrec).
  split.
  - eexists. split; [apply createSafeAttestationsTransaction_guard|now cbn].
    apply safePreconditions_None_iff. tauto.
  - eexists. split; [apply createAttestations_guard|now cbn].
    apply directPreconditions_None_iff. tauto.
Qed.


(** ** The analytics sink *)

Lemma requestLoop_ignores_sink (f : AnalyticsEvent -> Error + TrackResult)
    fields encoder client record (parsedCsv : list (list string)) :
  forall (acc : list AttestationRequestData) (w : World),
    requestLoop (withTrackEvent x f) h fields encoder client record parsedCsv acc w
    = requestLoop x h fields encoder client record parsedCsv acc w.
Proof.
  induction parsedCsv as [|row rest IH]; intros acc w; [reflexivity|].
  cbn [requestLoop withTrackEvent shouldIncludeRow encodeRow processRecipient].
  destruct (shouldIncludeRow x row fields); cbn [negb]; [|apply IH].
  unfold bind, perform.
  destruct (encodeRow x row fields encoder); [reflexivity|].
  destruct (processRecipient x (recipientCell row) client); [reflexivity|].
  apply IH.
Qed.

(** C5, as the code has it.  [plausible.trackEvent] is called inside the
    [try] block of both operations and its result is dropped: two sinks
    that both return, whatever they return and whatever they did with the
    event, leave a submission with the same component state, the same
    history of states and the same calls, in either mode.  (A sink that
    throws is caught by the operation's [catch] block like any other
    failure.) *)
Theorem returning_sink_does_not_change_outcome :
  forall (f g : AnalyticsEvent -> Error + TrackResult) (state : EasContext) (w : World),
    (forall event, exists result, f event = inr result) ->
    (forall event, exists result, g event = inr result) ->
    createSafeAttestationsTransaction (withTrackEvent x f) h state w
    = createSafeAttestationsTransaction (withTrackEvent x g) h state w
    /\ createAttestations (withTrackEvent x f) h state w
       = createAttestations (withTrackEvent x g) h state w.
Proof.
  intros f g state w Hf Hg. split.
  - unfold createSafeAttestationsTransaction, tryCatch.
    destruct (safePreconditions h state) as [r|]; [|reflexivity].
    cbn [withTrackEvent parse encodeFunctionData createTransaction getAddress
         getTransactionHash signTransaction getSignature proposeTransaction
         trackEvent].
    unfold bind, parseCsv, perform, setState, throw.
    cbn [withTrackEvent parse].
    destruct (parse x (csv h)) as [e|parsedCsv]; [reflexivity|].
    rewrite !requestLoop_ignores_sink.
    match goal with |- context [requestLoop x h ?a ?b ?c ?d parsedCsv [] ?w1] =>
      destruct (requestLoop x h a b c d parsedCsv [] w1) as [[e|requestData] w2]
    end; [reflexivity|].
    destruct (Hf (attestationCreated h (sr_chainId r) (List.length requestData)))
      as (rf & Hrf).
    destruct (Hg (attestationCreated h (sr_chainId r) (List.length requestData)))
      as (rg & Hrg).
    rewrite Hrf, Hrg.
    repeat match goal with
           | |- context [match ?e with inl _ => _ | inr _ => _ end] =>
               destruct e eqn:?; cbn
           | |- context [match ?e with Some _ => _ | None => _ end] =>
               destruct e eqn:?; cbn
           end; reflexivity.
  - unfold createAttestations, tryCatch.
    destruct (directPreconditions h state) as [r|]; [|reflexivity].
    cbn [withTrackEvent createMultiAttestRequest multiAttest wait trackEvent].
    unfold bind, perform, setState, throw.
    destruct (createMultiAttestRequest x (csv h) (schemaUid state) (dr_schema r)
                (dr_schemaEncoder r) (SchemaRecord.revocable (dr_schemaRecord r))
                (dr_publicClient r)) as [e|request]; [reflexivity|].
    destruct (Hf (attestationCreated h (dr_chainId r)
                    (List.length (MultiAttestRequest.data request)))) as (rf & Hrf).
    destruct (Hg (attestationCreated h (dr_chainId r)
                    (List.length (MultiAttestRequest.data request)))) as (rg & Hrg).
    rewrite Hrf, Hrg.
    repeat match goal with
           | |- context [match ?e with inl _ => _ | inr _ => _ end] =>
               destruct e eqn:?; cbn
           end; reflexivity.
Qed.

End Properties.

(** * The properties on concrete runs *)

Example split_schema_string :
  JS.split "," "uint256 value, string note" = ["uint256 value"; " string note"].
Proof. reflexivity. Qed.

Example split_empty_string : JS.split "," "" = [""].
Proof. reflexivity. Qed.

Example index_of_short_row : JS.index ["0xalice"] (JS.length ["0xalice"] - 2) = None.
Proof. reflexivity. Qed.

(** The example of the specification: [uint256 value, string note] with
    refUID mode off. *)
Example resolver_example :
  resolvedFieldList (Demo.externals Demo.trackOk) (Demo.hooks "" false)
    "uint256 value, string note"
  = [{| name := Some "value"; type := "uint256" |};
     {| name := Some "note"; type := "string" |};
     {| name := Some "recipient"; type := "address" |}].
Proof. reflexivity. Qed.

Example resolver_drops_unknown_type :
  resolvedFieldList (Demo.externals Demo.trackOk) (Demo.hooks "" true)
    "uint256 value,foo bar"
  = [{| name := Some "value"; type := "uint256" |}; refUIDField; recipientField].
Proof. reflexivity. Qed.

Lemma createSchemaFromRecord_resolves_witness :
  schemaRecord Demo.noteState
  = Some {| SchemaRecord.schema := "string note"; SchemaRecord.revocable := true |}
  /\ exists w',
       createSchemaFromRecord (Demo.externals Demo.trackOk) (Demo.hooks "" true)
         Demo.noteState (fresh (initialState "0xgood")) = (inr tt, w')
       /\ schema (store w')
          = Some [{| name := Some "note"; type := "string" |}; refUIDField; recipientField].
Proof.
  split; [reflexivity|].
  destruct (createSchemaFromRecord_resolves (Demo.externals Demo.trackOk)
              (Demo.hooks "" true) Demo.noteState
              {| SchemaRecord.schema := "string note"; SchemaRecord.revocable := true |}
              (fresh (initialState "0xgood")) eq_refl) as (w' & Hrun & Hschema & _).
  exists w'. split; [exact Hrun|exact Hschema].
Defined.

Lemma batch_has_one_entry_per_well_formed_row_witness :
  parse Demo.sdk (csv Demo.rowsHooks) = inr Demo.rows
  /\ List.length Demo.rows = (2 + 1)%nat
  /\ exists request,
       In (EncodeFunctionData request)
          (effects (snd (createSafeAttestationsTransaction Demo.sdk Demo.rowsHooks
                           Demo.noteState (fresh Demo.noteState))))
       /\ List.length (MultiAttestRequest.data request) = 2%nat.
Proof.
  destruct (batch_has_one_entry_per_well_formed_row Demo.sdk Demo.rowsHooks
              Demo.noteState Demo.noteState
              [{| name := Some "note"; type := "string" |}; recipientField]
              Demo.rows 2 1 eq_refl eq_refl eq_refl eq_refl)
    as (Hrows & Hsize & Hassembled).
  split; [reflexivity|]. split; [exact Hrows|].
  destruct (Hassembled _ eq_refl) as (request & Hin).
  - intros row Hrow. vm_compute in Hrow.
    destruct Hrow as [<-|[<-|[]]]; eexists; reflexivity.
  - exists request. split; [exact Hin|]. exact (proj1 (Hsize request Hin)).
Defined.

Example safe_run_hands_over_two_requests :
  In (EncodeFunctionData Demo.twoRequests)
     (effects (snd (createSafeAttestationsTransaction Demo.sdk Demo.rowsHooks
                      Demo.noteState (fresh Demo.noteState)))).
Proof. vm_compute. repeat (first [left; reflexivity | right]). Qed.

Example safe_run_hands_over_ref_request :
  In (EncodeFunctionData Demo.refRequest)
     (effects (snd (createSafeAttestationsTransaction Demo.sdk Demo.refHooks
                      Demo.noteRefState (fresh Demo.noteRefState)))).
Proof. vm_compute. repeat (first [left; reflexivity | right]). Qed.

Lemma request_constant_fields_witness :
  exists record,
    schemaRecord Demo.noteState = Some record
    /\ expirationTime Demo.forAlice = 0%Z
    /\ value Demo.forAlice = 0%Z
    /\ revocable Demo.forAlice = SchemaRecord.revocable record
    /\ (includeRefUid Demo.rowsHooks = false ->
        refUID Demo.forAlice = Some ZERO_BYTES32).
Proof.
  apply (request_constant_fields Demo.sdk Demo.rowsHooks Demo.noteState Demo.noteState
           Demo.twoRequests Demo.forAlice).
  - vm_compute. repeat (first [left; reflexivity | right]).
  - left; reflexivity.
Defined.

Lemma recipient_is_last_cell_witness :
  exists fields client parsedCsv,
    schema Demo.noteRefState = Some fields
    /\ publicClient Demo.refHooks = Some client
    /\ parse Demo.sdk (csv Demo.refHooks) = inr parsedCsv
    /\ Forall2
         (fun row d =>
            processRecipient Demo.sdk (JS.index row (JS.length row - 1)) client
            = inr (recipient d)
            /\ (includeRefUid Demo.refHooks = true ->
                refUID d = JS.index row (JS.length row - 2)))
         (includedRows Demo.sdk fields parsedCsv)
         (MultiAttestRequest.data Demo.refRequest).
Proof.
  apply (recipient_is_last_cell Demo.sdk Demo.refHooks Demo.noteRefState
           Demo.noteRefState Demo.refRequest).
  vm_compute. repeat (first [left; reflexivity | right]).
Defined.

(** C1 as the specification states it fails: with a reference UID column
    the included row [hello,0xref,0xalice] has [0xref] as its
    second-to-last cell, and the one cell handed to [processRecipient] is
    the last one, [0xalice], which becomes the recipient. *)
Lemma recipient_cell_with_refUID_column :
  includeRefUid Demo.refHooks = true
  /\ parse Demo.sdk (csv Demo.refHooks) = inr [Demo.refRow]
  /\ includedRows Demo.sdk
       [{| name := Some "note"; type := "string" |}; refUIDField; recipientField]
       [Demo.refRow] = [Demo.refRow]
  /\ statedRecipientCell Demo.refHooks Demo.refRow = Some "0xref"
  /\ resolvedCells
       (effects (snd (createSafeAttestationsTransaction Demo.sdk Demo.refHooks
                        Demo.noteRefState (fresh Demo.noteRefState))))
     = [Some "0xalice"]
  /\ resolvedCells
       (effects (snd (createSafeAttestationsTransaction Demo.sdk Demo.refHooks
                        Demo.noteRefState (fresh Demo.noteRefState))))
     <> map (statedRecipientCell Demo.refHooks) [Demo.refRow]
  /\ In (EncodeFunctionData Demo.refRequest)
       (effects (snd (createSafeAttestationsTransaction Demo.sdk Demo.refHooks
                        Demo.noteRefState (fresh Demo.noteRefState))))
  /\ map recipient (MultiAttestRequest.data Demo.refRequest) = ["0xalice"].
Proof.
  repeat (split; [reflexivity|]).
  split; [vm_compute; discriminate|].
  split; [vm_compute; repeat (first [left; reflexivity | right])|reflexivity].
Qed.

Lemma unmet_precondition_records_error_witness :
  exists w',
    createSafeAttestationsTransaction Demo.sdk Demo.hooksWithoutSigner Demo.noteState
      (fresh Demo.noteState) = (inr tt, w')
    /\ effects w' = []
    /\ history w' = [store w']
    /\ safeTransactionState (store w')
       = Some {| status := SafeError; txHash := None; signature := None;
                 error := Some {| message :=
                   "Missing signer, safe, safeApiKit or ethersAdapter" |} |}
    /\ store w' = with_safeTransactionState (safeTransactionState (store w'))
                    Demo.noteState.
Proof.
  apply (unmet_precondition_records_error Demo.sdk Demo.hooksWithoutSigner
           Demo.noteState (fresh Demo.noteState)).
  left; reflexivity.
Defined.

(** C4 as the specification states it fails: with no signer connected the
    guard throws, and the call changes [safeTransactionState] from
    [undefined] to the error state. *)
Lemma unmet_precondition_changes_transaction_state :
  rpcSigner Demo.hooksWithoutSigner = None
  /\ safeTransactionState (store (fresh Demo.noteState)) = None
  /\ option_map status
       (safeTransactionState
          (store (snd (createSafeAttestationsTransaction Demo.sdk
                         Demo.hooksWithoutSigner Demo.noteState
                         (fresh Demo.noteState)))))
     = Some SafeError
  /\ safeTransactionState
       (store (snd (createSafeAttestationsTransaction Demo.sdk
                      Demo.hooksWithoutSigner Demo.noteState (fresh Demo.noteState))))
     <> safeTransactionState (store (fresh Demo.noteState)).
Proof.
  repeat (split; [reflexivity|]). vm_compute. discriminate.
Qed.

Lemma returning_sink_does_not_change_outcome_witness :
  createSafeAttestationsTransaction
    (withTrackEvent Demo.sdk Demo.trackOk) Demo.rowsHooks Demo.noteState
    (fresh Demo.noteState)
  = createSafeAttestationsTransaction
      (withTrackEvent Demo.sdk (fun _ => inr (TrackResultRef 7))) Demo.rowsHooks
      Demo.noteState (fresh Demo.noteState)
  /\ createAttestations
       (withTrackEvent Demo.sdk Demo.trackOk) Demo.rowsHooks Demo.noteState
       (fresh Demo.noteState)
     = createAttestations
         (withTrackEvent Demo.sdk (fun _ => inr (TrackResultRef 7))) Demo.rowsHooks
         Demo.noteState (fresh Demo.noteState).
Proof.
  apply (returning_sink_does_not_change_outcome Demo.sdk Demo.rowsHooks
           Demo.trackOk (fun _ => inr (TrackResultRef 7)) Demo.noteState
           (fresh Demo.noteState)).
  - intros event. exists (TrackResultRef 0). reflexivity.
  - intros event. exists (TrackResultRef 7). reflexivity.
Defined.

(** C5 as the specification states it fails: the same submission, with
    every other call succeeding, ends [created] (Safe) and [success]
    (direct) when [trackEvent] returns, and [error] in both modes when
    [trackEvent] throws; the Safe proposal and the direct transaction have
    been sent in both runs. *)
Lemma throwing_sink_changes_outcome :
  option_map status
    (safeTransactionState
       (store (snd (createSafeAttestationsTransaction
                      (withTrackEvent Demo.sdk Demo.trackOk) Demo.rowsHooks
                      Demo.noteState (fresh Demo.noteState)))))
  = Some SafeCreated
  /\ safeTransactionState
       (store (snd (createSafeAttestationsTransaction
                      (withTrackEvent Demo.sdk Demo.trackThrows) Demo.rowsHooks
                      Demo.noteState (fresh Demo.noteState))))
     = Some {| status := SafeError; txHash := None; signature := None;
               error := Some {| message := "plausible is not reachable" |} |}
  /\ transactionStatus
       (store (snd (createAttestations
                      (withTrackEvent Demo.sdk Demo.trackOk) Demo.rowsHooks
                      Demo.noteState (fresh Demo.noteState))))
     = Some Success
  /\ transactionStatus
       (store (snd (createAttestations
                      (withTrackEvent Demo.sdk Demo.trackThrows) Demo.rowsHooks
                      Demo.noteState (fresh Demo.noteState))))
     = Some TxError
  /\ (exists props,
        In (ProposeTransaction props)
           (effects (snd (createSafeAttestationsTransaction
                            (withTrackEvent Demo.sdk Demo.trackThrows) Demo.rowsHooks
                            Demo.noteState (fresh Demo.noteState)))))
  /\ (exists requests,
        In (MultiAttest requests)
           (effects (snd (createAttestations
                            (withTrackEvent Demo.sdk Demo.trackThrows) Demo.rowsHooks
                            Demo.noteState (fresh Demo.noteState)))))
  /\ store (snd (createSafeAttestationsTransaction
                   (withTrackEvent Demo.sdk Demo.trackOk) Demo.rowsHooks
                   Demo.noteState (fresh Demo.noteState)))
     <> store (snd (createSafeAttestationsTransaction
                      (withTrackEvent Demo.sdk Demo.trackThrows) Demo.rowsHooks
                      Demo.noteState (fresh Demo.noteState)))
  /\ store (snd (createAttestations
                   (withTrackEvent Demo.sdk Demo.trackOk) Demo.rowsHooks
                   Demo.noteState (fresh Demo.noteState)))
     <> store (snd (createAttestations
                      (withTrackEvent Demo.sdk Demo.trackThrows) Demo.rowsHooks
                      Demo.noteState (fresh Demo.noteState))).
Proof.
  repeat (split; [reflexivity|]).
  split; [eexists; vm_compute; repeat (first [left; reflexivity | right])|].
  split; [eexists; vm_compute; repeat (first [left; reflexivity | right])|].
  split; vm_compute; discriminate.
Qed.

Lemma no_encoder_or_schema_halts_submission_witness :
  (exists w1,
     createSafeAttestationsTransaction Demo.sdk Demo.rowsHooks (initialState "0xgood")
       (fresh (initialState "0xgood")) = (inr tt, w1)
     /\ effects w1 = []
     /\ option_map status (safeTransactionState (store w1)) = Some SafeError)
  /\ (exists w2,
        createAttestations Demo.sdk Demo.rowsHooks (initialState "0xgood")
          (fresh (initialState "0xgood")) = (inr tt, w2)
        /\ effects w2 = []
        /\ transactionStatus (store w2) = Some TxError).
Proof.
  apply (no_encoder_or_schema_halts_submission Demo.sdk Demo.rowsHooks
           (initialState "0xgood") (fresh (initialState "0xgood"))).
  left; reflexivity.
Defined.

(** C6 as the specification states it fails: a provider mounted on a good
    schema and then pointed at one with an unknown type has both
    [schemaError] and [schemaEncoderError] recorded, keeps the encoder of
    the first schema, and both submissions go through: rows are encoded
    and the request is built and sent. *)
Lemma recorded_schema_error_does_not_halt_submission :
  schemaError (store Demo.afterSchemaChange)
  = Some {| message := "Invalid type name: foo" |}
  /\ schemaEncoderError (store Demo.afterSchemaChange)
     = Some {| message := "bad schema" |}
  /\ In (EncodeRow ["0xalice"])
       (effects (snd (createSafeAttestationsTransaction Demo.sdk Demo.badHooks
                        (store Demo.afterSchemaChange)
                        (fresh (store Demo.afterSchemaChange)))))
  /\ option_map status
       (safeTransactionState
          (store (snd (createSafeAttestationsTransaction Demo.sdk Demo.badHooks
                         (store Demo.afterSchemaChange)
                         (fresh (store Demo.afterSchemaChange))))))
     = Some SafeCreated
  /\ In (CreateMultiAttestRequest "0xalice")
       (effects (snd (createAttestations Demo.sdk Demo.badHooks
                        (store Demo.afterSchemaChange)
                        (fresh (store Demo.afterSchemaChange)))))
  /\ transactionStatus
       (store (snd (createAttestations Demo.sdk Demo.badHooks
                      (store Demo.afterSchemaChange)
                      (fresh (store Demo.afterSchemaChange)))))
     = Some Success.
Proof.
  split; [reflexivity|]. split; [reflexivity|].
  split; [vm_compute; repeat (first [left; reflexivity | right])|].
  split; [reflexivity|].
  split; [vm_compute; repeat (first [left; reflexivity | right])|].
  reflexivity.
Qed.

Lemma non_revocable_schema_is_never_submitted_witness :
  (exists w1,
     createSafeAttestationsTransaction Demo.sdk Demo.rowsHooks Demo.lockedState
       (fresh Demo.lockedState) = (inr tt, w1)
     /\ effects w1 = []
     /\ safeTransactionState (store w1)
        = safeState SafeError None None (Some missingSafe))
  /\ (exists w2,
        createAttestations Demo.sdk Demo.rowsHooks Demo.lockedState
          (fresh Demo.lockedState) = (inr tt, w2)
        /\ effects w2 = []
        /\ transactionStatus (store w2) = Some TxError
        /\ transactionError (store w2) = Some missingDirect).
Proof.
  apply (non_revocable_schema_is_never_submitted Demo.sdk Demo.rowsHooks
           Demo.lockedState
           {| SchemaRecord.schema := "string note"; SchemaRecord.revocable := false |}
           (fresh Demo.lockedState));
    reflexivity.
Defined.

Example direct_run_trace :
  statusTrace (snd (createAttestations Demo.sdk Demo.rowsHooks Demo.noteState
                      (fresh Demo.noteState)))
  = [Some Creating; Some Attesting; Some WaitUid; Some Success].
Proof. reflexivity. Qed.

Example direct_run_trace_sink_throws :
  statusTrace (snd (createAttestations Demo.offline Demo.rowsHooks Demo.noteState
                      (fresh Demo.noteState)))
  = [Some Creating; Some Attesting; Some TxError].
Proof. reflexivity. Qed.

(** * The rest of the provider *)

Section Coverage.

Variable x : Externals.
Variable h : Hooks.

(** ** The loop leaves the component state alone, however it ends *)

Lemma requestLoop_frame fields encoder client record (parsedCsv : list (list string)) :
  forall (acc : list AttestationRequestData) (w : World),
    store (snd (requestLoop x h fields encoder client record parsedCsv acc w)) = store w
    /\ history (snd (requestLoop x h fields encoder client record parsedCsv acc w))
       = history w.
Proof.
  induction parsedCsv as [|row rest IH]; intros acc w; cbn [requestLoop].
  - now cbn.
  - destruct (shouldIncludeRow x row fields); cbn [negb]; [|apply IH].
    unfold bind at 1 3, perform at 1 3.
    destruct (encodeRow x row fields encoder) as [e|encodedData]; [now cbn|].
    unfold bind at 1 2, perform at 1 2.
    destruct (processRecipient x (recipientCell row) client) as [e|address];
      [now cbn|].
    match goal with |- context [requestLoop x h _ _ _ _ rest ?a ?w1] =>
      destruct (IH a w1) as (Hs & Hh) end.
    rewrite Hs, Hh. now cbn.
Qed.

(** ** What a Safe submission writes *)

Lemma createSafeAttestationsTransaction_outcome state w :
  safeOutcome w (createSafeAttestationsTransaction x h state w).
Proof.
  unfold createSafeAttestationsTransaction, tryCatch.
  destruct (safePreconditions h state) as [r|].
  2: { split; [reflexivity|]. eexists [], _. cbn.
       split; [left; eexists; reflexivity|]. split; reflexivity. }
  unfold bind at 1, setState at 1. cbn [store history effects].
  unfold bind at 1, parseCsv, perform at 1. cbn [store history effects].
  destruct (parse x (csv h)) as [e|parsedCsv].
  { split; [reflexivity|]. eexists [_], _. cbn. rewrite <- app_assoc.
    split; [right; left; eexists; reflexivity|]. split; reflexivity. }
  unfold bind at 1.
  match goal with |- context [requestLoop x h ?f ?e ?c ?rc parsedCsv [] ?w1] =>
    pose proof (requestLoop_frame f e c rc parsedCsv [] w1) as [Hst Hhist];
    destruct (requestLoop x h f e c rc parsedCsv [] w1) as [[e1|requestData] w2]
  end; cbn [snd store history effects] in Hst, Hhist.
  { split; [reflexivity|]. eexists [_], _. cbn. rewrite Hst, Hhist, <- app_assoc.
    split; [right; left; eexists; reflexivity|]. split; reflexivity. }
  unfold bind, perform, setState, throw.
  repeat match goal with
         | |- context [match ?e with inl _ => _ | inr _ => _ end] =>
             destruct e eqn:?; cbn
         | |- context [match ?e with Some _ => _ | None => _ end] =>
             destruct e eqn:?; cbn
         end;
    (split; [reflexivity|]); cbn; rewrite ?Hst, ?Hhist, <- ?app_assoc; cbn.
  all: try (eexists [_; _], _; cbn;
            split; [right; right; right; do 2 eexists; reflexivity|];
            split; reflexivity).
  all: try (eexists [_; _], _; cbn;
            split; [right; right; left; do 2 eexists; reflexivity|];
            split; reflexivity).
  all: try (eexists [_], _; cbn;
            split; [right; left; eexists; reflexivity|];
            split; reflexivity).
Qed.

(** ** What a direct submission writes *)

Lemma createAttestations_outcome state w :
  directOutcome x w (createAttestations x h state w).
Proof.
  unfold createAttestations, tryCatch.
  destruct (directPreconditions h state) as [r|].
  2: { split; [reflexivity|]. eexists [], _. cbn.
       split; [left; eexists; reflexivity|]. split; reflexivity. }
  unfold bind, perform, setState, throw.
  repeat match goal with
         | |- context [match ?e with inl _ => _ | inr _ => _ end] =>
             destruct e eqn:?; cbn
         end;
    (split; [reflexivity|]); cbn; rewrite <- ?app_assoc; cbn.
  - eexists [_], _. cbn. split; [right; left; eexists; reflexivity|].
    split; reflexivity.
  - eexists [_; _], _. cbn. split; [right; right; left; eexists; reflexivity|].
    split; reflexivity.
  - eexists [_; _], _. cbn. split; [right; right; left; eexists; reflexivity|].
    split; reflexivity.
  - eexists [_; _; _], _. cbn.
    split; [right; right; right; left; do 2 eexists; split; [reflexivity|eassumption]|].
    split; reflexivity.
  - eexists [_; _; _], _. cbn.
    split; [right; right; right; right; do 2 eexists; split; [reflexivity|eassumption]|].
    split; reflexivity.
Qed.

(** ** What the schema effects write *)

Lemma lastInvalid_cons type rejected before :
  lastInvalid (type :: rejected) before
  = lastInvalid rejected (Some (invalidTypeName type)).
Proof.
  unfold lastInvalid. cbn [rev].
  destruct (rev rejected) as [|t ts] eqn:Hrev; reflexivity.
Qed.

Lemma forEachField_states (fields : list string) :
  forall (acc : list SchemaField) (w : World),
  exists w',
    forEachField x fields acc w = (inr (acc ++ flat_map (recognized x) fields), w')
    /\ effects w' = effects w
    /\ history w'
       = history w
           ++ map (fun type => with_schemaError (Some (invalidTypeName type)) (store w))
                (flat_map (rejectedType x) fields)
    /\ store w'
       = with_schemaError
           (lastInvalid (flat_map (rejectedType x) fields) (schemaError (store w)))
           (store w).
Proof.
  induction fields as [|field rest IH]; intros acc w;
    cbn [forEachField flat_map].
  - exists w. rewrite !app_nil_r. repeat split. now destruct w as [[] ? ?].
  - unfold recognized at 1, rejectedType at 1 3.
    destruct (destructureField field) as [[type|] name].
    + destruct (isSchemaFieldTypeName x type).
      * destruct (IH (acc ++ [{| name := name; type := type |}]) w)
          as (w' & Hrun & Heff & Hhist & Hst).
        exists w'. rewrite Hrun, <- app_assoc. now repeat split.
      * unfold bind at 1, setState at 1.
        match goal with |- context [forEachField x rest acc ?w1] =>
          destruct (IH acc w1) as (w' & Hrun & Heff & Hhist & Hst) end.
        cbn [store history effects] in Heff, Hhist, Hst.
        exists w'. rewrite Hrun. split; [reflexivity|]. split; [exact Heff|].
        cbn [app map]. rewrite lastInvalid_cons.
        split; [now rewrite Hhist, <- app_assoc|exact Hst].
    + unfold bind at 1, setState at 1.
      match goal with |- context [forEachField x rest acc ?w1] =>
        destruct (IH acc w1) as (w' & Hrun & Heff & Hhist & Hst) end.
      cbn [store history effects] in Heff, Hhist, Hst.
      exists w'. rewrite Hrun. split; [reflexivity|]. split; [exact Heff|].
      cbn [app map]. rewrite lastInvalid_cons.
      split; [now rewrite Hhist, <- app_assoc|exact Hst].
Qed.

(** X1.  An effect with nothing to work on returns at once and leaves
    the world as it is: [loadSchemaRecord] without an EAS configuration, a
    provider or a non-empty schema identifier, [createSchemaFromRecord]
    without a schema record, [initSchemaEncoder] without a record or with
    an empty schema string. *)
Theorem effects_return_early :
  forall (state : EasContext) (w : World),
    (easConfig h = None \/ rpcProvider h = None \/ props_schemaUid h = "" ->
     loadSchemaRecord x h w = (inr tt, w))
    /\ (schemaRecord state = None ->
        createSchemaFromRecord x h state w = (inr tt, w)
        /\ initSchemaEncoder x state w = (inr tt, w))
    /\ (forall record,
          schemaRecord state = Some record ->
          SchemaRecord.schema record = "" ->
          initSchemaEncoder x state w = (inr tt, w)).
Proof.
  intros state w. split; [|split].
  - unfold loadSchemaRecord. intros [H|[H|H]]; rewrite H.
    + reflexivity.
    + now destruct (easConfig h).
    + now destruct (easConfig h), (rpcProvider h).
  - intros Hnone. unfold createSchemaFromRecord, initSchemaEncoder.
    now rewrite Hnone.
  - intros record Hrec Hempty. unfold initSchemaEncoder.
    now rewrite Hrec; cbn; rewrite Hempty.
Qed.

(** X2.  [loadSchemaRecord] with a configuration, a provider and a
    non-empty identifier makes exactly one call, [getSchema], shows
    [schemaRecordIsLoading] true and then false, and clears [schemaError].
    When the call returns, its record is stored and [schemaRecordError] is
    clear; when it throws, [schemaRecord] is set to [undefined] and the
    exception is stored.  In both cases the field list, the encoder and
    its error, and the transaction fields stay as they were. *)
Theorem loadSchemaRecord_outcome :
  forall (cfg : EasConfig) (provider : Provider) (w : World),
    easConfig h = Some cfg ->
    rpcProvider h = Some provider ->
    props_schemaUid h <> "" ->
    exists s1 w',
      loadSchemaRecord x h w = (inr tt, w')
      /\ effects w' = effects w ++ [GetSchema (props_schemaUid h)]
      /\ history w' = history w ++ [s1; store w']
      /\ schemaRecordIsLoading s1 = Some true
      /\ schemaRecordIsLoading (store w') = Some false
      /\ schemaError (store w') = None
      /\ match getSchema x provider (registryAddress cfg) (props_schemaUid h) with
         | inr record =>
             schemaRecord (store w') = Some record
             /\ schemaRecordError (store w') = None
         | inl err =>
             schemaRecord (store w') = None
             /\ schemaRecordError (store w') = Some err
         end
      /\ schema (store w') = schema (store w)
      /\ schemaEncoder (store w') = schemaEncoder (store w)
      /\ schemaEncoderError (store w') = schemaEncoderError (store w)
      /\ schemaUid (store w') = schemaUid (store w)
      /\ safeTransactionState (store w') = safeTransactionState (store w)
      /\ transaction (store w') = transaction (store w)
      /\ transactionError (store w') = transactionError (store w)
      /\ transactionStatus (store w') = transactionStatus (store w)
      /\ attestationUids (store w') = attestationUids (store w).
Proof.
  intros cfg provider w Hcfg Hprov Huid.
  unfold loadSchemaRecord. rewrite Hcfg, Hprov.
  destruct (props_schemaUid h) as [|c uid] eqn:Hu; [congruence|].
  cbn [JS.truthyString].
  unfold bind, tryCatch, perform, setState.
  destruct (getSchema x provider (registryAddress cfg) (String c uid)) as [err|record];
    cbn; do 2 eexists; (split; [reflexivity|]); cbn;
    rewrite <- app_assoc; repeat split.
Qed.

(** X3.  [createSchemaFromRecord] calls nothing and writes only
    [schemaError] and [schema]: it writes one state per declaration whose
    type name it rejects and one more for the field list; [schemaError]
    ends as the error naming the last rejected type, and is left as it was
    (not cleared) when no type is rejected. *)
Theorem createSchemaFromRecord_records_last_invalid_type :
  forall (state : EasContext) (record : SchemaRecord.t) (w : World),
    schemaRecord state = Some record ->
    exists w',
      createSchemaFromRecord x h state w = (inr tt, w')
      /\ effects w' = effects w
      /\ List.length (history w')
         = (List.length (history w)
            + List.length (unrecognizedTypes x (SchemaRecord.schema record)) + 1)%nat
      /\ (unrecognizedTypes x (SchemaRecord.schema record) = [] ->
          schemaError (store w') = schemaError (store w))
      /\ (forall front type,
            unrecognizedTypes x (SchemaRecord.schema record) = front ++ [type] ->
            schemaError (store w')
            = Some {| message := "Invalid type name: " ++ type |})
      /\ store w'
         = with_schema (schema (store w'))
             (with_schemaError (schemaError (store w')) (store w)).
Proof.
  intros state record w Hrec.
  unfold createSchemaFromRecord. rewrite Hrec.
  destruct (forEachField_states (JS.split "," (SchemaRecord.schema record)) [] w)
    as (w1 & Hrun & Heff & Hhist & Hst).
  unfold bind. rewrite Hrun. unfold setState.
  eexists. split; [reflexivity|]. cbn [store history effects].
  fold (unrecognizedTypes x (SchemaRecord.schema record)) in Hhist, Hst.
  split; [exact Heff|]. split; [|split; [|split]].
  - rewrite Hhist, !length_app, length_map. cbn. lia.
  - intros Hnone. rewrite Hst, Hnone. reflexivity.
  - intros front type Hlast. rewrite Hst, Hlast. cbn.
    unfold lastInvalid. now rewrite rev_app_distr.
  - rewrite Hst. reflexivity.
Qed.

(** X4.  The field list [createSchemaFromRecord] stores lines up with the
    cells the submission reads from a row: the index expression of the
    recipient cell, [length - 1], finds the [recipient] field, and in
    refUID mode the index expression of the reference cell, [length - 2],
    finds the [refUID] field. *)
Theorem resolved_fields_line_up_with_row_cells :
  forall (state : EasContext) (record : SchemaRecord.t) (w : World),
    schemaRecord state = Some record ->
    exists fields,
      schema (store (snd (createSchemaFromRecord x h state w))) = Some fields
      /\ JS.index fields (JS.length fields - 1) = Some recipientField
      /\ (includeRefUid h = true ->
          JS.index fields (JS.length fields - 2) = Some refUIDField)
      /\ ((if includeRefUid h then 2 else 1) <= JS.length fields)%Z.
Proof.
  intros state record w Hrec.
  unfold createSchemaFromRecord. rewrite Hrec.
  destruct (forEachField_states (JS.split "," (SchemaRecord.schema record)) [] w)
    as (w1 & Hrun & _).
  unfold bind. rewrite Hrun. unfold setState. cbn [snd store schema with_schema].
  eexists. split; [reflexivity|].
  destruct (includeRefUid h).
  - rewrite <- app_assoc. cbn [app].
    split; [|split; [intros _; apply index_before_last|]].
    + change [refUIDField; recipientField] with ([refUIDField] ++ [recipientField]).
      rewrite app_assoc. apply index_last.
    + unfold JS.length. rewrite length_app. cbn. lia.
  - split; [apply index_last|split; [discriminate|]].
    unfold JS.length. rewrite length_app. cbn. lia.
Qed.

(** X5.  [initSchemaEncoder] on a record with a non-empty schema string
    makes one call, the construction of the encoder, and writes one state.
    When the construction succeeds only [schemaEncoder] changes, so an
    error recorded by an earlier construction stays; when it throws only
    [schemaEncoderError] changes, so the encoder of an earlier record
    stays in the state. *)
Theorem initSchemaEncoder_outcome :
  forall (state : EasContext) (record : SchemaRecord.t) (w : World),
    schemaRecord state = Some record ->
    SchemaRecord.schema record <> "" ->
    exists w',
      initSchemaEncoder x state w = (inr tt, w')
      /\ effects w' = effects w ++ [NewSchemaEncoder (SchemaRecord.schema record)]
      /\ history w' = history w ++ [store w']
      /\ match newSchemaEncoder x (SchemaRecord.schema record) with
         | inr encoder =>
             store w' = with_schemaEncoder (Some encoder) (store w)
             /\ schemaEncoderError (store w') = schemaEncoderError (store w)
         | inl err =>
             store w' = with_schemaEncoderError (Some err) (store w)
             /\ schemaEncoder (store w') = schemaEncoder (store w)
         end.
Proof.
  intros state record w Hrec Hschema.
  unfold initSchemaEncoder. rewrite Hrec. cbn [option_map].
  destruct (SchemaRecord.schema record) as [|c rest] eqn:Hs; [congruence|].
  cbn [JS.truthyString].
  unfold tryCatch, bind, perform, setState.
  destruct (newSchemaEncoder x (String c rest)) as [err|encoder];
    cbn; eexists; (split; [reflexivity|]); cbn; repeat split.
Qed.

(** ** Submission through a Safe, beyond the batch *)

Ltac safe_cases state w0 :=
  let Hrun := fresh "Hrun" in
  destruct (createSafeAttestationsTransaction x h state w0) as [res wf] eqn:Hrun;
  unfold createSafeAttestationsTransaction, tryCatch in Hrun;
  destruct (safePreconditions h state) as [r|] eqn:Hpre;
  [ unfold bind at 1, setState at 1 in Hrun; cbn [fresh store history effects] in Hrun;
    unfold bind at 1, parseCsv, perform at 1 in Hrun;
    cbn [store history effects] in Hrun;
    destruct (parse x (csv h)) as [e|parsedCsv] eqn:Hparse;
    [ | unfold bind at 1 in Hrun;
        match type of Hrun with
        | context [requestLoop x h ?f ?e ?c ?rc parsedCsv [] ?w1] =>
            pose proof (requestLoop_frame f e c rc parsedCsv [] w1) as [Hst Hhist];
            pose proof (requestLoop_calls x h f e c rc parsedCsv [] w1) as Hcalls;
            destruct (requestLoop x h f e c rc parsedCsv [] w1)
              as [[e1|requestData] w2] eqn:Hloop;
            cbn [snd store history effects] in Hst, Hhist, Hcalls;
            [ | unfold bind, perform, setState, throw in Hrun;
                repeat match type of Hrun with
                       | context [match ?e with inl _ => _ | inr _ => _ end] =>
                           destruct e eqn:?; cbn in Hrun
                       | context [match ?e with Some _ => _ | None => _ end] =>
                           destruct e eqn:?; cbn in Hrun
                       end ]
        end ]
  | ]; cbn in Hrun; injection Hrun as <- <-; cbn [fst snd store history effects].

(** X6.  The Safe statuses a run of [createSafeAttestationsTransaction]
    writes are a prefix of [creating, signing, created], ended by [error]
    when it is not the whole sequence. *)
Theorem safe_submission_follows_status_machine :
  forall (state s : EasContext),
    let trace :=
      safeStatusTrace (snd (createSafeAttestationsTransaction x h state (fresh s))) in
    trace = [Some SafeError]
    \/ trace = [Some SafeCreating; Some SafeError]
    \/ trace = [Some SafeCreating; Some SafeSigning; Some SafeError]
    \/ trace = [Some SafeCreating; Some SafeSigning; Some SafeCreated].
Proof.
  intros state s trace. subst trace.
  destruct (createSafeAttestationsTransaction_outcome state (fresh s))
    as (_ & front & final & Hshape & Hhist & _).
  unfold safeStatusTrace. rewrite Hhist. cbn [fresh history app].
  rewrite map_map. cbn.
  destruct Hshape as [(e & ->)|[(e & ->)|[(hash & e & ->)|(hash & sig & ->)]]];
    cbn; tauto.
Qed.

(** X7.  A Safe submission writes [safeTransactionState] and nothing else:
    every state it writes, the last one included, is the state it found
    with that one field replaced, whatever fails on the way. *)
Theorem safe_submission_writes_one_field :
  forall (state : EasContext) (w : World),
    exists written,
      written <> []
      /\ history (snd (createSafeAttestationsTransaction x h state w))
         = history w ++ written
      /\ Forall (fun s' => s' = with_safeTransactionState (safeTransactionState s')
                                  (store w)) written
      /\ store (snd (createSafeAttestationsTransaction x h state w))
         = with_safeTransactionState
             (safeTransactionState
                (store (snd (createSafeAttestationsTransaction x h state w))))
             (store w).
Proof.
  intros state w.
  destruct (createSafeAttestationsTransaction_outcome state w)
    as (_ & front & final & _ & Hhist & Hstore).
  exists (map (fun st => with_safeTransactionState (Some st) (store w))
            (front ++ [final])).
  split; [|split; [exact Hhist|split]].
  - rewrite map_app. cbn. intros Hnil. now apply app_eq_nil in Hnil as [_ [=]].
  - apply Forall_forall. intros s' Hin. apply in_map_iff in Hin.
    destruct Hin as (st & <- & _). reflexivity.
  - rewrite Hstore. reflexivity.
Qed.

Lemma requestLoop_first_failure fields encoder client record
    (pre : list (list string)) (row : list string) (post : list (list string))
    (e : Error) :
  (forall r, In r (includedRows x fields pre) ->
     exists d, requestFor x h fields encoder client record r = inr d) ->
  shouldIncludeRow x row fields = true ->
  requestFor x h fields encoder client record row = inl e ->
  forall (acc : list AttestationRequestData) (w : World),
    exists w',
      requestLoop x h fields encoder client record (pre ++ row :: post) acc w
      = (inl e, w').
Proof.
  intros Hpre Hinc Hfail.
  induction pre as [|r0 pre IH]; intros acc w; cbn [app requestLoop].
  - rewrite Hinc. cbn [negb]. unfold requestFor in Hfail.
    unfold bind at 1, perform at 1.
    destruct (encodeRow x row fields encoder) as [e0|encodedData].
    + injection Hfail as <-. eexists; reflexivity.
    + unfold bind at 1, perform at 1.
      destruct (processRecipient x (recipientCell row) client) as [e0|address];
        [|discriminate].
      injection Hfail as <-. eexists; reflexivity.
  - cbn [includedRows filter] in Hpre.
    destruct (shouldIncludeRow x r0 fields) eqn:Hr0; cbn [negb].
    + destruct (Hpre r0 (or_introl eq_refl)) as (d & Hd).
      apply requestFor_inr in Hd.
      destruct Hd as (encodedData & address & Henc & Hrcp & _).
      unfold bind at 1, perform at 1. rewrite Henc.
      unfold bind at 1, perform at 1. rewrite Hrcp.
      apply IH. intros r Hr. apply Hpre. now right.
    + apply IH. exact Hpre.
Qed.

(** X8.  One row is enough to stop a Safe submission: when the guard
    passes and the CSV parses, and the first included row that does not
    encode or resolve throws [err], the submission ends in the error state
    carrying [err], hands no batch to [encodeFunctionData], and creates,
    signs and proposes nothing, however many rows before and after it are
    fine. *)
Theorem failing_row_aborts_safe_submission :
  forall (state s : EasContext) (ready : SafeReady)
         (before : list (list string)) (row : list string)
         (after : list (list string)) (err : Error),
    safePreconditions h state = Some ready ->
    parse x (csv h) = inr (before ++ row :: after) ->
    (forall r0, In r0 (includedRows x (sr_schema ready) before) ->
       exists d, requestFor x h (sr_schema ready) (sr_schemaEncoder ready)
                   (sr_publicClient ready) (sr_schemaRecord ready) r0 = inr d) ->
    shouldIncludeRow x row (sr_schema ready) = true ->
    requestFor x h (sr_schema ready) (sr_schemaEncoder ready) (sr_publicClient ready)
      (sr_schemaRecord ready) row = inl err ->
    safeTransactionState
      (store (snd (createSafeAttestationsTransaction x h state (fresh s))))
    = Some {| status := SafeError; txHash := None; signature := None;
              error := Some err |}
    /\ forall c,
         In c (effects (snd (createSafeAttestationsTransaction x h state (fresh s)))) ->
         c = Parse (csv h)
         \/ (exists row', c = EncodeRow row')
         \/ (exists cell, c = ProcessRecipient cell).
Proof.
  intros state s ready before row after err Hready Hcsv Hrows Hinc Hfail.
  pose proof (requestLoop_first_failure _ _ _ _ before row after err Hrows Hinc Hfail)
    as Hstops.
  safe_cases state (fresh s); try congruence;
    assert (r = ready) as -> by congruence;
    assert (parsedCsv = before ++ row :: after) as -> by congruence;
    match type of Hloop with
    | requestLoop _ _ _ _ _ _ _ ?acc ?w1 = _ =>
        destruct (Hstops acc w1) as (w' & Hrun); rewrite Hrun in Hloop
    end; try discriminate.
  injection Hloop as <- <-. split; [reflexivity|].
  intros c Hc. cbn in Hc. apply Hcalls in Hc.
  destruct Hc as [[<-|[]]|Hc]; tauto.
Qed.

Ltac find_call :=
  match goal with
  | |- In _ (_ ++ _) => apply in_or_app; ((left; find_call) || (right; find_call))
  | |- In _ (_ :: _) => (left; reflexivity) || (right; find_call)
  end.

Ltac split_in Hcalls :=
  repeat match goal with
         | H : _ \/ _ |- _ => destruct H
         | H : exists _, _ |- _ => destruct H
         | H : In _ (_ ++ _) |- _ => apply in_app_or in H
         | H : In _ [] |- _ => destruct H
         | H : In _ (_ :: _) |- _ => destruct H
         | H : In _ (effects _) |- _ => apply Hcalls in H
         | H : False |- _ => destruct H
         end.

(** X9.  The analytics event of a Safe submission is emitted only after
    the transaction has been proposed, and it reports the submission as it
    was made: its [attestationCount] is the number of requests in the
    batch handed to [encodeFunctionData], its [schema] is the [schemaUid]
    prop, its [wallet] is "safe". *)
Theorem safe_analytics_event_reports_the_batch :
  forall (state s : EasContext) (event : AnalyticsEvent),
    In (TrackEvent event)
       (effects (snd (createSafeAttestationsTransaction x h state (fresh s)))) ->
    exists request props,
      In (EncodeFunctionData request)
         (effects (snd (createSafeAttestationsTransaction x h state (fresh s))))
      /\ In (ProposeTransaction props)
           (effects (snd (createSafeAttestationsTransaction x h state (fresh s))))
      /\ props_attestationCount event
         = List.length (MultiAttestRequest.data request)
      /\ props_schema event = props_schemaUid h
      /\ MultiAttestRequest.schema request = props_schemaUid h
      /\ props_wallet event = "safe"
      /\ eventName event = "attestation-created".
Proof.
  intros state s event.
  safe_cases state (fresh s); intros Hin; cbn in Hin; split_in Hcalls;
    try discriminate;
    match goal with
    | H : TrackEvent _ = TrackEvent _ |- _ => injection H as <-
    end;
    do 2 eexists; (split; [find_call|]); (split; [find_call|]); repeat split.
Qed.

(** X10.  A Safe submission reports [created] only for a transaction it
    has proposed: when it ends with status [created], the proposal was
    sent and accepted, with the hash and the signature data that the
    state shows, for the Safe address of the hooks and the signer's
    address, and the state shows no error. *)
Theorem created_means_proposed :
  forall (state s : EasContext),
    option_map status
      (safeTransactionState
         (store (snd (createSafeAttestationsTransaction x h state (fresh s)))))
    = Some SafeCreated ->
    exists props kit hash sig,
      In (ProposeTransaction props)
         (effects (snd (createSafeAttestationsTransaction x h state (fresh s))))
      /\ safeApiKit h = Some kit
      /\ proposeTransaction x kit props = inr tt
      /\ safeTransactionState
           (store (snd (createSafeAttestationsTransaction x h state (fresh s))))
         = Some {| status := SafeCreated; txHash := Some hash;
                   signature := Some sig; error := None |}
      /\ safeTxHash props = hash
      /\ senderSignature props = SafeSignature.data sig
      /\ JS.truthyString (safeAddress h) = Some (propose_safeAddress props).
Proof.
  intros state s.
  safe_cases state (fresh s); cbn; intros Hcreated; try discriminate.
  assert (Hhooks : safeApiKit h = Some (sr_safeApiKit r)
                   /\ JS.truthyString (safeAddress h) = Some (sr_safeAddress r)).
  { clear - Hpre. unfold safePreconditions in Hpre.
    destruct (rpcSigner h), (JS.truthyString (safeAddress h)), (safe h),
      (safeApiKit h), (schemaEncoder state), (schema state), (easConfig h),
      (publicClient h), (JS.truthyNumber (option_map id (chain h))),
      (schemaRecord state) as [record|]; try discriminate.
    destruct (SchemaRecord.revocable record); [|discriminate].
    injection Hpre as <-. now cbn. }
  destruct Hhooks as (Hkit & Haddr).
  do 4 eexists. split; [find_call|]. split; [exact Hkit|].
  split; [|split; [reflexivity|split; [reflexivity|split; [reflexivity|exact Haddr]]]].
  match goal with H : proposeTransaction _ _ _ = inr ?u |- _ =>
    destruct u; exact H end.
Qed.

(** X11.  A CSV none of whose rows passes [shouldIncludeRow] (an empty
    CSV among them) does not stop a Safe submission whose guard passes:
    the request handed to [encodeFunctionData] has the schema identifier
    and an empty list of attestations, and no row is encoded or
    resolved. *)
Theorem empty_batch_is_still_submitted :
  forall (state s : EasContext) (ready : SafeReady) (rows : list (list string)),
    safePreconditions h state = Some ready ->
    parse x (csv h) = inr rows ->
    includedRows x (sr_schema ready) rows = [] ->
    In (EncodeFunctionData {| MultiAttestRequest.schema := props_schemaUid h;
                              MultiAttestRequest.data := [] |})
       (effects (snd (createSafeAttestationsTransaction x h state (fresh s))))
    /\ forall c,
         In c (effects (snd (createSafeAttestationsTransaction x h state (fresh s)))) ->
         (forall row, c <> EncodeRow row) /\ (forall cell, c <> ProcessRecipient cell).
Proof.
  intros state s ready rows Hready Hcsv Hnone.
  assert (Hloops : forall w,
            exists w',
              requestLoop x h (sr_schema ready) (sr_schemaEncoder ready)
                (sr_publicClient ready) (sr_schemaRecord ready) rows [] w
              = (inr [], w')
              /\ effects w' = effects w).
  { intros w.
    destruct (requestLoop_total x h (sr_schema ready) (sr_schemaEncoder ready)
                (sr_publicClient ready) (sr_schemaRecord ready) rows) with
      (acc := @nil AttestationRequestData) (w := w) as (out & w' & Hrun).
    { rewrite Hnone. intros row []. }
    destruct (requestLoop_returns _ _ _ _ _ _ _ _ _ _ _ Hrun)
      as (pushed & -> & Hall & _ & _ & Heff).
    rewrite Hnone in Hall, Heff. inversion Hall; subst.
    exists w'. cbn in Heff. rewrite app_nil_r in Heff. now split. }
  safe_cases state (fresh s); try congruence;
    assert (r = ready) as -> by congruence;
    assert (parsedCsv = rows) as -> by congruence;
    match type of Hloop with
    | requestLoop _ _ _ _ _ _ _ _ ?w1 = _ =>
        destruct (Hloops w1) as (w' & Hrun & Heff); rewrite Hrun in Hloop
    end; try discriminate;
    injection Hloop as <- <-; cbn in Heff; rewrite Heff;
    (split; [find_call|]);
    intros c Hc; cbn in Hc; split_in Hcalls; subst c; split; intros; discriminate.
Qed.

(** ** Direct submission, beyond the status machine *)

(** X12.  A direct submission writes only [transactionStatus],
    [transaction], [transactionError] and [attestationUids]: in every
    state it writes, the schema side of the state and
    [safeTransactionState] are as it found them. *)
Theorem direct_submission_keeps_schema_fields :
  forall (state : EasContext) (w : World),
    exists written,
      written <> []
      /\ history (snd (createAttestations x h state w)) = history w ++ written
      /\ In (store (snd (createAttestations x h state w))) written
      /\ Forall (fun s' => sameSchemaFields (store w) s'
                          /\ safeTransactionState s' = safeTransactionState (store w))
           written.
Proof.
  intros state w.
  destruct (createAttestations_outcome state w)
    as (_ & front & final & Hshape & Hhist & Hstore).
  exists (front ++ [final]).
  split; [intros Hnil; now apply app_eq_nil in Hnil as [_ [=]]|].
  split; [exact Hhist|]. split; [rewrite Hstore; apply in_or_app; right; now left|].
  destruct Hshape as [(e & ->)|[(e & ->)|[(e & ->)|[(tx & e & -> & _)|(tx & uid & -> & _)]]]];
    repeat constructor.
Qed.

(** X13.  When a direct submission ends with status [success], the state
    holds the transaction that [multiAttest] returned and the UIDs its
    [wait] resolved to; [transactionError] is not written, so the error
    of an earlier failed attempt is still in the state unless
    [resetTransactions] was called in between. *)
Theorem success_keeps_earlier_error :
  forall (state : EasContext) (w : World),
    transactionStatus (store (snd (createAttestations x h state w))) = Some Success ->
    exists tx uid,
      transaction (store (snd (createAttestations x h state w))) = Some tx
      /\ wait x tx = inr uid
      /\ attestationUids (store (snd (createAttestations x h state w))) = Some uid
      /\ transactionError (store (snd (createAttestations x h state w)))
         = transactionError (store w).
Proof.
  intros state w.
  destruct (createAttestations_outcome state w)
    as (_ & front & final & Hshape & _ & Hstore).
  rewrite Hstore. clear Hstore.
  destruct Hshape as [(e & H)|[(e & H)|[(e & H)|[(tx & e & H & _)|(tx & uid & H & Hwait)]]]];
    apply (f_equal (fun l => last l final)) in H; rewrite last_last in H; cbn in H;
    subst final; cbn; intros Hstatus; try discriminate.
  exists tx, uid. now repeat split.
Qed.

(** X14.  When a direct submission ends with status [error], the state
    holds the exception; [attestationUids] is not written, so the UIDs of
    an earlier successful attempt are still in the state; and if the
    failure came while waiting for the transaction to be mined, the
    transaction handle is kept. *)
Theorem error_keeps_earlier_uids :
  forall (state : EasContext) (w : World),
    transactionStatus (store (snd (createAttestations x h state w))) = Some TxError ->
    (exists e, transactionError (store (snd (createAttestations x h state w))) = Some e)
    /\ attestationUids (store (snd (createAttestations x h state w)))
       = attestationUids (store w)
    /\ (transaction (store (snd (createAttestations x h state w)))
        = transaction (store w)
        \/ exists tx e,
             transaction (store (snd (createAttestations x h state w))) = Some tx
             /\ wait x tx = inl e
             /\ transactionError (store (snd (createAttestations x h state w)))
                = Some e).
Proof.
  intros state w.
  destruct (createAttestations_outcome state w)
    as (_ & front & final & Hshape & _ & Hstore).
  rewrite Hstore. clear Hstore.
  destruct Hshape as [(e & H)|[(e & H)|[(e & H)|[(tx & e & H & Hwait)|(tx & uid & H & _)]]]];
    apply (f_equal (fun l => last l final)) in H; rewrite last_last in H; cbn in H;
    subst final; cbn; intros Hstatus; try discriminate;
    (split; [eexists; reflexivity|]); (split; [reflexivity|]);
    try (left; reflexivity).
  right. exists tx, e. now repeat split.
Qed.

Ltac direct_cases state w0 :=
  let Hrun := fresh "Hrun" in
  destruct (createAttestations x h state w0) as [res wf] eqn:Hrun;
  unfold createAttestations, tryCatch in Hrun;
  destruct (directPreconditions h state) as [r|] eqn:Hpre;
  [ unfold bind, perform, setState, throw in Hrun;
    repeat match type of Hrun with
           | context [match ?e with inl _ => _ | inr _ => _ end] =>
               destruct e eqn:?; cbn in Hrun
           end
  | ]; cbn in Hrun; injection Hrun as <- <-; cbn [fst snd store history effects].

(** X15.  The analytics event of a direct submission is emitted after
    [multiAttest] has returned the transaction and before the wait for its
    UIDs; it counts the requests of the [MultiAttestRequest] that was
    built under the schema identifier of the state and sent, carries the
    [schemaUid] prop, and labels the wallet "safe" in this mode too. *)
Theorem direct_analytics_event_reports_the_request :
  forall (state s : EasContext) (event : AnalyticsEvent),
    In (TrackEvent event) (effects (snd (createAttestations x h state (fresh s)))) ->
    exists ready request tx,
      directPreconditions h state = Some ready
      /\ createMultiAttestRequest x (csv h) (schemaUid state) (dr_schema ready)
           (dr_schemaEncoder ready) true (dr_publicClient ready) = inr request
      /\ multiAttest x (address (dr_easConfig ready)) (dr_rpcSigner ready) [request]
         = inr tx
      /\ (effects (snd (createAttestations x h state (fresh s)))
          = [CreateMultiAttestRequest (csv h); MultiAttest [request];
             TrackEvent event]
          \/ effects (snd (createAttestations x h state (fresh s)))
             = [CreateMultiAttestRequest (csv h); MultiAttest [request];
                TrackEvent event; Wait])
      /\ props_attestationCount event
         = List.length (MultiAttestRequest.data request)
      /\ props_schema event = props_schemaUid h
      /\ props_wallet event = "safe".
Proof.
  intros state s event.
  direct_cases state (fresh s); intros Hin; cbn in Hin;
    repeat match goal with
           | H : _ \/ _ |- _ => destruct H
           | H : False |- _ => destruct H
           end; try discriminate;
    match goal with
    | H : TrackEvent _ = TrackEvent _ |- _ => injection H as <-
    end;
    assert (Hrev : SchemaRecord.revocable (dr_schemaRecord r) = true)
      by (clear - Hpre; unfold directPreconditions in Hpre;
          destruct (schemaEncoder state), (schema state), (easConfig h),
            (rpcSigner h), (publicClient h),
            (JS.truthyNumber (option_map id (chain h))),
            (schemaRecord state) as [record|]; try discriminate;
          destruct (SchemaRecord.revocable record) eqn:Hrev; [|discriminate];
          injection Hpre as <-; exact Hrev);
    rewrite Hrev in *;
    do 3 eexists; (split; [reflexivity|]); (split; [eassumption|]);
    (split; [eassumption|]); cbn; tauto.
Qed.

(** ** Reset and retry *)

(** X16.  [resetTransactions] undoes a submission: from a state whose
    transaction fields are unset, a Safe or a direct submission followed
    by [resetTransactions] leaves the component state exactly as it was,
    whether the submission succeeded or failed. *)
Theorem reset_undoes_submission :
  forall (state : EasContext) (w : World),
    transactionFieldsUnset (store w) ->
    store (snd (resetTransactions
                  (snd (createSafeAttestationsTransaction x h state w)))) = store w
    /\ store (snd (resetTransactions (snd (createAttestations x h state w))))
       = store w.
Proof.
  intros state w (Hsafe & Htx & Herr & Hstatus & Huids).
  destruct (store w) as [uid rec loading recErr sErr fields enc encErr sts tx txErr st uids]
    eqn:Hw.
  cbn in Hsafe, Htx, Herr, Hstatus, Huids. subst sts tx txErr st uids.
  split.
  - destruct (createSafeAttestationsTransaction_outcome state w)
      as (_ & front & final & _ & _ & Hstore).
    unfold resetTransactions, setState. cbn [snd store].
    rewrite Hstore, Hw. reflexivity.
  - destruct (createAttestations_outcome state w)
      as (_ & front & final & Hshape & _ & Hstore).
    unfold resetTransactions, setState. cbn [snd store].
    rewrite Hstore. clear Hstore. rewrite Hw in Hshape.
    destruct Hshape
      as [(e & H)|[(e & H)|[(e & H)|[(tx & e & H & _)|(tx & uid' & H & _)]]]];
      apply (f_equal (fun l => last l final)) in H; rewrite last_last in H;
      cbn in H; subst final; reflexivity.
Qed.

(** X17.  The guards read nothing of the transaction fields: two captured
    states that agree on the schema side make a submission run the same
    way, call for call and write for write.  So a leftover [error] or
    [success] does not block the next attempt, and a submission still in
    flight does not block a second one. *)
Theorem submission_ignores_transaction_fields :
  forall (state state' : EasContext) (w : World),
    sameSchemaFields state state' ->
    createSafeAttestationsTransaction x h state' w
    = createSafeAttestationsTransaction x h state w
    /\ createAttestations x h state' w = createAttestations x h state w.
Proof.
  intros state state' w (Huid & Hrec & _ & _ & _ & Hfields & Henc & _).
  split.
  - unfold createSafeAttestationsTransaction, safePreconditions.
    now rewrite Hrec, Hfields, Henc.
  - unfold createAttestations, directPreconditions.
    now rewrite Hrec, Hfields, Henc, Huid.
Qed.

(** ** What no action undoes *)

Ltac solve_keeps :=
  unfold keeps, coherent, coherentDirect, coherentSafe; cbn;
  intuition (try discriminate; try congruence).

Ltac each_written :=
  repeat first [apply Forall_nil | apply Forall_cons]; solve_keeps.

Ltac nothing_written :=
  exists []; rewrite app_nil_r;
  split; [reflexivity|split; [constructor|unfold keeps; tauto]].

Lemma keeps_refl s : keeps s s.
Proof. unfold keeps. tauto. Qed.

Lemma keeps_trans s1 s2 s3 : keeps s1 s2 -> keeps s2 s3 -> keeps s1 s3.
Proof.
  unfold keeps. intros (H1 & H2 & H3 & H4 & H5) (K1 & K2 & K3 & K4 & K5).
  split; [congruence|split; [auto|split; [auto|split; auto]]].
Qed.

(** One action: it appends the states it writes to the history, the
    component state is the last one written (or untouched), and each
    keeps what the state it started from had. *)
Lemma act_keeps (a : Action) (w : World) :
  exists written,
    history (snd (act x h a w)) = history w ++ written
    /\ Forall (keeps (store w)) written
    /\ keeps (store w) (store (snd (act x h a w))).
Proof.
  destruct a as [|state|state|state|state|]; cbn [act].
  - unfold loadSchemaRecord.
    destruct (easConfig h) as [cfg|];
      [|nothing_written].
    destruct (rpcProvider h) as [provider|];
      [|nothing_written].
    destruct (JS.truthyString (Some (props_schemaUid h))) as [uid|];
      [|nothing_written].
    unfold bind, tryCatch, perform, setState.
    destruct (getSchema x provider (registryAddress cfg) uid) as [err|record];
      cbn; eexists [_; _]; rewrite <- app_assoc;
      (split; [reflexivity|]); split; [each_written|solve_keeps
                                      |each_written|solve_keeps].
  - unfold createSchemaFromRecord.
    destruct (schemaRecord state) as [record|];
      [|nothing_written].
    destruct (forEachField_states (JS.split "," (SchemaRecord.schema record)) [] w)
      as (w1 & Hrun & _ & Hhist & Hst).
    unfold bind. rewrite Hrun. unfold setState. cbn [snd store history].
    rewrite Hhist, Hst, <- app_assoc.
    eexists. split; [reflexivity|]. split; [|solve_keeps].
    apply Forall_app. split; [|each_written].
    apply Forall_forall. intros s' Hin. apply in_map_iff in Hin.
    destruct Hin as (type & <- & _). solve_keeps.
  - unfold initSchemaEncoder.
    destruct (JS.truthyString (option_map SchemaRecord.schema (schemaRecord state)))
      as [schemaString|];
      [|nothing_written].
    unfold tryCatch, bind, perform, setState.
    destruct (newSchemaEncoder x schemaString) as [err|encoder];
      cbn; eexists [_]; (split; [reflexivity|]);
      split; [each_written|solve_keeps
             |each_written|solve_keeps].
  - destruct (createSafeAttestationsTransaction_outcome state w)
      as (_ & front & final & Hshape & Hhist & Hstore).
    rewrite Hhist, Hstore. eexists. split; [reflexivity|].
    destruct Hshape as [(e & H)|[(e & H)|[(hash & e & H)|(hash & sig & H)]]];
      rewrite H;
      apply (f_equal (fun l => last l final)) in H; rewrite last_last in H;
      cbn in H; subst final;
      (split; [each_written|solve_keeps]).
  - destruct (createAttestations_outcome state w)
      as (_ & front & final & Hshape & Hhist & Hstore).
    rewrite Hhist, Hstore. eexists. split; [reflexivity|].
    destruct Hshape
      as [(e & H)|[(e & H)|[(e & H)|[(tx & e & H & _)|(tx & uid & H & _)]]]];
      rewrite H;
      apply (f_equal (fun l => last l final)) in H; rewrite last_last in H;
      cbn in H; subst final;
      (split; [each_written|solve_keeps]).
  - unfold resetTransactions, setState. cbn. eexists [_].
    split; [reflexivity|]. split; [each_written|solve_keeps].
Qed.

End Coverage.

(** ** The provider over time *)

Section Machine.

Variable x : Externals.

Lemma runAll_keeps (steps : list (Hooks * Action)) :
  forall w : World,
    exists written,
      history (runAll x steps w) = history w ++ written
      /\ Forall (keeps (store w)) written
      /\ keeps (store w) (store (runAll x steps w)).
Proof.
  induction steps as [|[h a] rest IH]; intros w; cbn [runAll].
  - exists []. rewrite app_nil_r. split; [reflexivity|].
    split; [constructor|apply keeps_refl].
  - destruct (act_keeps x h a w) as (first & Hhist1 & Hall1 & Hstore1).
    destruct (IH (snd (act x h a w))) as (later & Hhist2 & Hall2 & Hstore2).
    exists (first ++ later). rewrite Hhist2, Hhist1, <- app_assoc.
    split; [reflexivity|]. split.
    + apply Forall_app. split; [exact Hall1|].
      eapply Forall_impl; [|exact Hall2].
      intros s' Hs'. eapply keeps_trans; eassumption.
    + eapply keeps_trans; eassumption.
Qed.

(** X18.  [state.schemaUid] never changes: whatever effects and calls
    follow, with whatever hooks and [schemaUid] props, and whichever
    render each closes over, every state the provider writes carries the
    schema identifier it was mounted with.  (A direct submission builds
    its request under this identifier, not under the current prop.) *)
Theorem state_schemaUid_is_the_mounted_one :
  forall (uid : string) (steps : list (Hooks * Action)),
    schemaUid (store (runAll x steps (fresh (initialState uid)))) = uid
    /\ Forall (fun s => schemaUid s = uid)
         (history (runAll x steps (fresh (initialState uid)))).
Proof.
  intros uid steps.
  destruct (runAll_keeps steps (fresh (initialState uid)))
    as (written & Hhist & Hall & Hstore).
  split; [exact (proj1 Hstore)|].
  rewrite Hhist. cbn [fresh history app].
  eapply Forall_impl; [|exact Hall]. intros s' Hs'. exact (proj1 Hs').
Qed.

(** X19.  Every state a mounted provider ever writes is coherent, through
    any sequence of effects, submissions and resets: status [error] comes
    with its error, [wait_uid] and [success] with the transaction handle,
    [success] with the UIDs, Safe status [signing] with the hash,
    [created] with hash and signature, Safe [error] with its error. *)
Theorem every_written_state_is_coherent :
  forall (uid : string) (steps : list (Hooks * Action)),
    coherent (store (runAll x steps (fresh (initialState uid))))
    /\ Forall coherent (history (runAll x steps (fresh (initialState uid)))).
Proof.
  intros uid steps.
  assert (Hstart : coherent (initialState uid)).
  { unfold coherent, coherentDirect, coherentSafe. cbn.
    intuition discriminate. }
  destruct (runAll_keeps steps (fresh (initialState uid)))
    as (written & Hhist & Hall & Hstore).
  cbn [fresh store] in Hall, Hstore.
  split; [apply Hstore, Hstart|].
  rewrite Hhist. cbn [fresh history app].
  eapply Forall_impl; [|exact Hall]. intros s' Hs'. apply Hs', Hstart.
Qed.

(** X20.  No action takes the field list, the encoder or the encoder
    error away once the state has one: a failed reload or a failed
    encoder construction leaves the field list and encoder of the earlier
    record in place, and [schemaEncoderError] stays after a later
    construction succeeds. *)
Theorem resolved_fields_and_encoder_are_never_unset :
  forall (steps : list (Hooks * Action)) (w : World),
    (schema (store w) <> None -> schema (store (runAll x steps w)) <> None)
    /\ (schemaEncoder (store w) <> None ->
        schemaEncoder (store (runAll x steps w)) <> None)
    /\ (schemaEncoderError (store w) <> None ->
        schemaEncoderError (store (runAll x steps w)) <> None).
Proof.
  intros steps w.
  destruct (runAll_keeps steps w) as (_ & _ & _ & (_ & H1 & H2 & H3 & _)).
  now repeat split.
Qed.

End Machine.

(** ** Reading the schema string *)

Lemma split_without_separator (sep : ascii) (s : string) :
  occurs sep s = false -> JS.split sep s = [s].
Proof.
  induction s as [|c r IH]; cbn; [reflexivity|].
  destruct (Ascii.eqb c sep); cbn; [discriminate|].
  intros Hr. now rewrite (IH Hr).
Qed.

Lemma split_pieces_without_separator (sep : ascii) (s : string) :
  Forall (fun piece => occurs sep piece = false) (JS.split sep s).
Proof.
  induction s as [|c r IH]; cbn; [repeat constructor|].
  destruct (Ascii.eqb c sep) eqn:Hc; [constructor; [reflexivity|exact IH]|].
  destruct (JS.split sep r) as [|piece pieces]; [repeat constructor; cbn; now rewrite Hc|].
  inversion IH; subst. constructor; [cbn; now rewrite Hc|assumption].
Qed.

(** X21.  Splitting loses nothing: the pieces of a string split at a
    separator, joined again with that separator, are the string; there is
    always at least one piece and no piece contains the separator.  So
    the declarations [createSchemaFromRecord] walks over are exactly the
    comma-free stretches of the schema string, in order. *)
Theorem split_then_join :
  forall (sep : ascii) (s : string),
    String.concat (String sep EmptyString) (JS.split sep s) = s
    /\ JS.split sep s <> []
    /\ Forall (fun piece => occurs sep piece = false) (JS.split sep s).
Proof.
  intros sep s. split; [|split; [apply split_nonempty|apply split_pieces_without_separator]].
  induction s as [|c r IH]; cbn [JS.split]; [reflexivity|].
  pose proof (split_nonempty sep r) as Hne.
  destruct (JS.split sep r) as [|piece pieces]; [congruence|].
  destruct (Ascii.eqb_spec c sep) as [->|Hc].
  - change (String.concat (String sep "") ("" :: piece :: pieces))
      with (String sep (String.concat (String sep "") (piece :: pieces))).
    now rewrite IH.
  - rewrite <- IH. now destruct pieces.
Qed.

(** X22.  Every declaration has a type name to test, so the [undefined]
    case of the type guard never runs: the type is the declaration,
    trimmed, up to its first space, and contains no space.  A declaration
    that is a single word has no name: its field, if the type is
    recognized, is pushed with [name] undefined. *)
Theorem declaration_always_has_a_type :
  forall field : string,
    (exists type,
       fst (destructureField field) = Some type /\ occurs " " type = false)
    /\ (occurs " " (JS.trim field) = false ->
        destructureField field = (Some (JS.trim field), None)).
Proof.
  intros field. unfold destructureField. split.
  - pose proof (split_nonempty " " (JS.trim field)) as Hne.
    pose proof (split_pieces_without_separator " " (JS.trim field)) as Hclean.
    destruct (JS.split " " (JS.trim field)) as [|type rest]; [congruence|].
    exists type. split; [reflexivity|]. now inversion Hclean.
  - intros Hword. now rewrite (split_without_separator _ _ Hword).
Qed.

Lemma trimStart_blanks (blanks s : string) :
  allWhiteSpace blanks = true -> JS.trimStart (blanks ++ s) = JS.trimStart s.
Proof.
  induction blanks as [|c r IH]; cbn; [reflexivity|].
  intros Hb. apply andb_prop in Hb as [Hc Hr]. rewrite Hc. now apply IH.
Qed.

Lemma trimEnd_blanks (s blanks : string) :
  allWhiteSpace blanks = true -> JS.trimEnd (s ++ blanks) = JS.trimEnd s.
Proof.
  intros Hb. induction s as [|c r IH]; cbn.
  - induction blanks as [|c r IH]; cbn; [reflexivity|].
    cbn in Hb. apply andb_prop in Hb as [Hc Hr]. now rewrite (IH Hr), Hc.
  - now rewrite IH.
Qed.

Lemma trimStart_app (s t : string) :
  JS.trimStart (s ++ t)
  = match JS.trimStart s with
    | EmptyString => JS.trimStart t
    | kept => (kept ++ t)%string
    end.
Proof.
  induction s as [|c r IH]; cbn; [now destruct (JS.trimStart t)|].
  destruct (JS.isWhiteSpace c); [exact IH|reflexivity].
Qed.

(** X23.  Blanks around a declaration do not matter: a declaration
    preceded and followed by any blanks (spaces, tabs, line breaks) is
    read as the same type and name, so "uint256 value, string note" and
    "uint256 value,string note" resolve to the same fields. *)
Theorem blanks_around_declaration_are_ignored :
  forall (lead field trail : string),
    allWhiteSpace lead = true ->
    allWhiteSpace trail = true ->
    destructureField (lead ++ field ++ trail) = destructureField field.
Proof.
  intros lead field trail Hlead Htrail.
  assert (Htrim : JS.trim (lead ++ field ++ trail) = JS.trim field).
  { unfold JS.trim. rewrite (trimStart_blanks lead _ Hlead), trimStart_app.
    destruct (JS.trimStart field) as [|c kept] eqn:Hkept.
    - clear - Htrail. induction trail as [|c r IH]; cbn; [reflexivity|].
      cbn in Htrail. apply andb_prop in Htrail as [Hc Hr]. rewrite Hc.
      exact (IH Hr).
    - now apply trimEnd_blanks. }
  unfold destructureField. now rewrite Htrim.
Qed.

(** ** From mounting to a submission *)

Section Mounting.

Variable x : Externals.
Variable h : Hooks.

(** X24.  Mounting makes the provider ready: when the schema record is
    fetched, its schema string is not empty and the encoder can be built,
    then after the load and the two effects that follow it the state holds
    the record, the resolved field list and the encoder, with no encoder
    error, having made two calls; and if the record is revocable and the
    hooks provide a signer, a public client and a chain, the guard of a
    direct submission closed over that state passes. *)
Theorem mounted_provider_is_ready :
  forall (cfg : EasConfig) (provider : Provider) (record : SchemaRecord.t)
         (encoder : SchemaEncoder),
    easConfig h = Some cfg ->
    rpcProvider h = Some provider ->
    props_schemaUid h <> "" ->
    getSchema x provider (registryAddress cfg) (props_schemaUid h) = inr record ->
    SchemaRecord.schema record <> "" ->
    newSchemaEncoder x (SchemaRecord.schema record) = inr encoder ->
    schemaRecord (store (Demo.mounted x h)) = Some record
    /\ schemaRecordIsLoading (store (Demo.mounted x h)) = Some false
    /\ schema (store (Demo.mounted x h))
       = Some (resolvedFieldList x h (SchemaRecord.schema record))
    /\ schemaEncoder (store (Demo.mounted x h)) = Some encoder
    /\ schemaEncoderError (store (Demo.mounted x h)) = None
    /\ effects (Demo.mounted x h)
       = [GetSchema (props_schemaUid h); NewSchemaEncoder (SchemaRecord.schema record)]
    /\ (SchemaRecord.revocable record = true ->
        rpcSigner h <> None ->
        publicClient h <> None ->
        JS.truthyNumber (option_map id (chain h)) <> None ->
        directPreconditions h (store (Demo.mounted x h)) <> None).
Proof.
  intros cfg provider record encoder Hcfg Hprov Huid Hget Hschema Henc.
  assert (Hload :
    snd (loadSchemaRecord x h (fresh (initialState (props_schemaUid h))))
    = {| store := with_schemaRecordIsLoading (Some false)
                    (with_schemaRecord (Some record)
                       (with_schemaRecordError None
                          (with_schemaRecordIsLoading (Some true)
                             (with_schemaError None
                                (initialState (props_schemaUid h))))));
         history := [with_schemaRecordError None
                       (with_schemaRecordIsLoading (Some true)
                          (with_schemaError None (initialState (props_schemaUid h))));
                     with_schemaRecordIsLoading (Some false)
                       (with_schemaRecord (Some record)
                          (with_schemaRecordError None
                             (with_schemaRecordIsLoading (Some true)
                                (with_schemaError None
                                   (initialState (props_schemaUid h))))))];
         effects := [GetSchema (props_schemaUid h)] |}).
  { unfold loadSchemaRecord. rewrite Hcfg, Hprov.
    destruct (props_schemaUid h) as [|c uid] eqn:Hu; [congruence|].
    cbn [JS.truthyString].
    unfold bind, tryCatch, perform, setState. rewrite Hget. reflexivity. }
  unfold Demo.mounted, Demo.afterRender. rewrite Hload. cbn [store].
  unfold createSchemaFromRecord.
  cbn [schemaRecord with_schemaRecordIsLoading with_schemaRecord].
  unfold bind.
  match goal with |- context [forEachField x ?fs [] ?w1] =>
    destruct (forEachField_states x fs [] w1) as (w2 & Hrun & Heff & _ & Hst) end.
  rewrite Hrun. unfold setState at 1. cbn [snd].
  unfold initSchemaEncoder.
  cbn [schemaRecord with_schemaRecordIsLoading with_schemaRecord option_map].
  destruct (SchemaRecord.schema record) as [|c0 rest] eqn:Hs; [congruence|].
  cbn [JS.truthyString].
  unfold tryCatch, perform. rewrite Henc. unfold setState.
  cbn [snd store history effects]. rewrite Hst, Heff. cbn.
  repeat (split; [reflexivity|]).
  split.
  { f_equal. unfold resolvedFieldList, recognizedFields.
    destruct (includeRefUid h); cbn; now rewrite <- ?app_assoc. }
  repeat (split; [reflexivity|]).
  intros Hrev Hsigner Hclient Hchain.
  unfold directPreconditions. cbn. rewrite Hcfg.
  destruct (rpcSigner h); [|congruence].
  destruct (publicClient h); [|congruence].
  destruct (JS.truthyNumber (option_map id (chain h))); [|congruence].
  rewrite Hrev. discriminate.
Qed.

(** X25.  A failed load leaves nothing to submit: when fetching the
    schema record throws, the provider ends with the exception in
    [schemaRecordError] and with no record, field list or encoder, and a
    Safe or direct submission closed over that state stops at its guard
    without making a call. *)
Theorem failed_load_halts_submissions :
  forall (cfg : EasConfig) (provider : Provider) (err : Error),
    easConfig h = Some cfg ->
    rpcProvider h = Some provider ->
    props_schemaUid h <> "" ->
    getSchema x provider (registryAddress cfg) (props_schemaUid h) = inl err ->
    schemaRecordError (store (Demo.mounted x h)) = Some err
    /\ schemaRecord (store (Demo.mounted x h)) = None
    /\ schema (store (Demo.mounted x h)) = None
    /\ schemaEncoder (store (Demo.mounted x h)) = None
    /\ effects (Demo.mounted x h) = [GetSchema (props_schemaUid h)]
    /\ effects (snd (createSafeAttestationsTransaction x h (store (Demo.mounted x h))
                       (Demo.mounted x h)))
       = [GetSchema (props_schemaUid h)]
    /\ effects (snd (createAttestations x h (store (Demo.mounted x h))
                       (Demo.mounted x h)))
       = [GetSchema (props_schemaUid h)]
    /\ transactionStatus
         (store (snd (createAttestations x h (store (Demo.mounted x h))
                        (Demo.mounted x h))))
       = Some TxError.
Proof.
  intros cfg provider err Hcfg Hprov Huid Hget.
  assert (Hmounted :
    Demo.mounted x h
    = {| store := with_schemaRecordError (Some err)
                    (with_schemaRecordIsLoading (Some false)
                       (with_schemaRecord None
                          (with_schemaRecordError None
                             (with_schemaRecordIsLoading (Some true)
                                (with_schemaError None
                                   (initialState (props_schemaUid h)))))));
         history := [with_schemaRecordError None
                       (with_schemaRecordIsLoading (Some true)
                          (with_schemaError None (initialState (props_schemaUid h))));
                     with_schemaRecordError (Some err)
                       (with_schemaRecordIsLoading (Some false)
                          (with_schemaRecord None
                             (with_schemaRecordError None
                                (with_schemaRecordIsLoading (Some true)
                                   (with_schemaError None
                                      (initialState (props_schemaUid h)))))))];
         effects := [GetSchema (props_schemaUid h)] |}).
  { unfold Demo.mounted, Demo.afterRender, loadSchemaRecord.
    rewrite Hcfg, Hprov.
    destruct (props_schemaUid h) as [|c uid] eqn:Hu; [congruence|].
    cbn [JS.truthyString].
    unfold bind, tryCatch, perform, setState. rewrite Hget. reflexivity. }
  rewrite Hmounted. cbn [store effects].
  repeat (split; [reflexivity|]).
  rewrite createSafeAttestationsTransaction_guard, createAttestations_guard.
  - now cbn.
  - apply directPreconditions_None_iff. right; left. reflexivity.
  - apply safePreconditions_None_iff. do 4 right. left. reflexivity.
Qed.

End Mounting.

(** * The rest of the provider on concrete runs *)

Lemma loadSchemaRecord_outcome_witness :
  exists w',
    loadSchemaRecord Demo.sdk Demo.rowsHooks (fresh (initialState "0xgood"))
    = (inr tt, w')
    /\ effects w' = [GetSchema "0xgood"]
    /\ schemaRecord (store w') = Some Sample.noteRecord
    /\ schemaRecordIsLoading (store w') = Some false.
Proof.
  destruct (loadSchemaRecord_outcome Demo.sdk Demo.rowsHooks
              {| address := "0xEAS"; registryAddress := "0xRegistry" |}
              (ProviderRef 0) (fresh (initialState "0xgood")) eq_refl eq_refl)
    as (s1 & w' & Hrun & Heff & _ & _ & Hloading & _ & Hget & _).
  - discriminate.
  - exists w'. split; [exact Hrun|]. split; [exact Heff|].
    split; [exact (proj1 Hget)|exact Hloading].
Defined.

Lemma createSchemaFromRecord_records_last_invalid_type_witness :
  unrecognizedTypes Demo.sdk (SchemaRecord.schema Sample.mixedRecord) = ["foo"; "baz"]
  /\ exists w',
       createSchemaFromRecord Demo.sdk Demo.rowsHooks Sample.mixedState
         (fresh Sample.mixedState) = (inr tt, w')
       /\ List.length (history w') = 3%nat
       /\ schemaError (store w') = Some {| message := "Invalid type name: baz" |}.
Proof.
  split; [reflexivity|].
  destruct (createSchemaFromRecord_records_last_invalid_type Demo.sdk Demo.rowsHooks
              Sample.mixedState Sample.mixedRecord (fresh Sample.mixedState) eq_refl)
    as (w' & Hrun & _ & Hlen & _ & Hlast & _).
  exists w'. split; [exact Hrun|]. split; [exact Hlen|].
  exact (Hlast ["foo"] "baz" eq_refl).
Defined.

Lemma resolved_fields_line_up_with_row_cells_witness :
  exists fields,
    schema (store (snd (createSchemaFromRecord Demo.sdk Demo.refHooks Sample.mixedState
                          (fresh Sample.mixedState)))) = Some fields
    /\ JS.index fields (JS.length fields - 1) = Some recipientField
    /\ (includeRefUid Demo.refHooks = true ->
        JS.index fields (JS.length fields - 2) = Some refUIDField)
    /\ ((if includeRefUid Demo.refHooks then 2 else 1) <= JS.length fields)%Z.
Proof.
  apply (resolved_fields_line_up_with_row_cells Demo.sdk Demo.refHooks
           Sample.mixedState Sample.mixedRecord (fresh Sample.mixedState)).
  reflexivity.
Defined.

Lemma initSchemaEncoder_outcome_witness :
  exists w',
    initSchemaEncoder Demo.sdk Sample.mixedState (fresh Demo.noteState) = (inr tt, w')
    /\ effects w' = [NewSchemaEncoder "foo bar, string note,baz qux"]
    /\ schemaEncoderError (store w') = Some {| message := "bad schema" |}
    /\ schemaEncoder (store w') = Some (SchemaEncoderRef 0).
Proof.
  destruct (initSchemaEncoder_outcome Demo.sdk Sample.mixedState Sample.mixedRecord
              (fresh Demo.noteState) eq_refl)
    as (w' & Hrun & Heff & _ & Hcase).
  - discriminate.
  - exists w'. split; [exact Hrun|]. split; [exact Heff|].
    destruct Hcase as (Hstore & Hencoder).
    split; [rewrite Hstore; reflexivity|exact Hencoder].
Defined.

Lemma failing_row_aborts_safe_submission_witness :
  safeTransactionState
    (store (snd (createSafeAttestationsTransaction Demo.sdk Sample.brokenHooks
                   Demo.noteState (fresh Demo.noteState))))
  = Some {| status := SafeError; txHash := None; signature := None;
            error := Some Sample.noRecipient |}
  /\ forall c,
       In c (effects (snd (createSafeAttestationsTransaction Demo.sdk
                             Sample.brokenHooks Demo.noteState
                             (fresh Demo.noteState)))) ->
       c = Parse (csv Sample.brokenHooks)
       \/ (exists row', c = EncodeRow row')
       \/ (exists cell, c = ProcessRecipient cell).
Proof.
  apply (failing_row_aborts_safe_submission Demo.sdk Sample.brokenHooks
           Demo.noteState Demo.noteState Sample.noteReady
           [["hello"; "0xalice"]] ["oops"; ""] [["again"; "0xbob"]]
           Sample.noRecipient); try reflexivity.
  intros r0 Hr0. vm_compute in Hr0. destruct Hr0 as [<-|[]].
  eexists; reflexivity.
Defined.

Lemma safe_analytics_event_reports_the_batch_witness :
  exists request props,
    In (EncodeFunctionData request)
       (effects (snd (createSafeAttestationsTransaction Demo.sdk Demo.rowsHooks
                        Demo.noteState (fresh Demo.noteState))))
    /\ In (ProposeTransaction props)
         (effects (snd (createSafeAttestationsTransaction Demo.sdk Demo.rowsHooks
                          Demo.noteState (fresh Demo.noteState))))
    /\ props_attestationCount Sample.safeEvent
       = List.length (MultiAttestRequest.data request)
    /\ props_schema Sample.safeEvent = props_schemaUid Demo.rowsHooks
    /\ MultiAttestRequest.schema request = props_schemaUid Demo.rowsHooks
    /\ props_wallet Sample.safeEvent = "safe"
    /\ eventName Sample.safeEvent = "attestation-created".
Proof.
  apply (safe_analytics_event_reports_the_batch Demo.sdk Demo.rowsHooks Demo.noteState
           Demo.noteState Sample.safeEvent).
  vm_compute. repeat (first [left; reflexivity | right]).
Defined.

Lemma created_means_proposed_witness :
  exists props kit hash sig,
    In (ProposeTransaction props)
       (effects (snd (createSafeAttestationsTransaction Demo.sdk Demo.rowsHooks
                        Demo.noteState (fresh Demo.noteState))))
    /\ safeApiKit Demo.rowsHooks = Some kit
    /\ proposeTransaction Demo.sdk kit props = inr tt
    /\ safeTransactionState
         (store (snd (createSafeAttestationsTransaction Demo.sdk Demo.rowsHooks
                        Demo.noteState (fresh Demo.noteState))))
       = Some {| status := SafeCreated; txHash := Some hash;
                 signature := Some sig; error := None |}
    /\ safeTxHash props = hash
    /\ senderSignature props = SafeSignature.data sig
    /\ JS.truthyString (safeAddress Demo.rowsHooks) = Some (propose_safeAddress props).
Proof.
  apply (created_means_proposed Demo.sdk Demo.rowsHooks Demo.noteState Demo.noteState).
  reflexivity.
Defined.

Lemma empty_batch_is_still_submitted_witness :
  In (EncodeFunctionData {| MultiAttestRequest.schema := "0xgood";
                            MultiAttestRequest.data := [] |})
     (effects (snd (createSafeAttestationsTransaction Demo.sdk Sample.emptyHooks
                      Demo.noteState (fresh Demo.noteState))))
  /\ forall c,
       In c (effects (snd (createSafeAttestationsTransaction Demo.sdk
                             Sample.emptyHooks Demo.noteState
                             (fresh Demo.noteState)))) ->
       (forall row, c <> EncodeRow row) /\ (forall cell, c <> ProcessRecipient cell).
Proof.
  apply (empty_batch_is_still_submitted Demo.sdk Sample.emptyHooks Demo.noteState
           Demo.noteState Sample.noteReady [[""]]); reflexivity.
Defined.

Lemma success_keeps_earlier_error_witness :
  exists tx uid,
    transaction (store (snd (createAttestations Demo.sdk Demo.rowsHooks
                               Sample.afterFailure (fresh Sample.afterFailure))))
    = Some tx
    /\ wait Demo.sdk tx = inr uid
    /\ attestationUids (store (snd (createAttestations Demo.sdk Demo.rowsHooks
                                      Sample.afterFailure
                                      (fresh Sample.afterFailure))))
       = Some uid
    /\ transactionError (store (snd (createAttestations Demo.sdk Demo.rowsHooks
                                       Sample.afterFailure
                                       (fresh Sample.afterFailure))))
       = Some Sample.noRecipient.
Proof.
  apply (success_keeps_earlier_error Demo.sdk Demo.rowsHooks Sample.afterFailure
           (fresh Sample.afterFailure)).
  reflexivity.
Defined.

Lemma error_keeps_earlier_uids_witness :
  (exists e,
     transactionError (store (snd (createAttestations Sample.neverMined Demo.rowsHooks
                                     Sample.afterSuccess (fresh Sample.afterSuccess))))
     = Some e)
  /\ attestationUids (store (snd (createAttestations Sample.neverMined Demo.rowsHooks
                                    Sample.afterSuccess (fresh Sample.afterSuccess))))
     = Some ["0xold"]
  /\ (transaction (store (snd (createAttestations Sample.neverMined Demo.rowsHooks
                                 Sample.afterSuccess (fresh Sample.afterSuccess))))
      = Some (ContractTransactionRef 9)
      \/ exists tx e,
           transaction (store (snd (createAttestations Sample.neverMined
                                      Demo.rowsHooks Sample.afterSuccess
                                      (fresh Sample.afterSuccess)))) = Some tx
           /\ wait Sample.neverMined tx = inl e
           /\ transactionError
                (store (snd (createAttestations Sample.neverMined Demo.rowsHooks
                               Sample.afterSuccess (fresh Sample.afterSuccess))))
              = Some e).
Proof.
  apply (error_keeps_earlier_uids Sample.neverMined Demo.rowsHooks Sample.afterSuccess
           (fresh Sample.afterSuccess)).
  reflexivity.
Defined.

Lemma direct_analytics_event_reports_the_request_witness :
  exists ready request tx,
    directPreconditions Demo.rowsHooks Demo.noteState = Some ready
    /\ createMultiAttestRequest Demo.sdk (csv Demo.rowsHooks)
         (schemaUid Demo.noteState) (dr_schema ready) (dr_schemaEncoder ready) true
         (dr_publicClient ready) = inr request
    /\ multiAttest Demo.sdk (address (dr_easConfig ready)) (dr_rpcSigner ready)
         [request] = inr tx
    /\ (effects (snd (createAttestations Demo.sdk Demo.rowsHooks Demo.noteState
                        (fresh Demo.noteState)))
        = [CreateMultiAttestRequest (csv Demo.rowsHooks); MultiAttest [request];
           TrackEvent Sample.directEvent]
        \/ effects (snd (createAttestations Demo.sdk Demo.rowsHooks Demo.noteState
                           (fresh Demo.noteState)))
           = [CreateMultiAttestRequest (csv Demo.rowsHooks); MultiAttest [request];
              TrackEvent Sample.directEvent; Wait])
    /\ props_attestationCount Sample.directEvent
       = List.length (MultiAttestRequest.data request)
    /\ props_schema Sample.directEvent = props_schemaUid Demo.rowsHooks
    /\ props_wallet Sample.directEvent = "safe".
Proof.
  apply (direct_analytics_event_reports_the_request Demo.sdk Demo.rowsHooks
           Demo.noteState Demo.noteState Sample.directEvent).
  vm_compute. repeat (first [left; reflexivity | right]).
Defined.

Lemma reset_undoes_submission_witness :
  store (snd (resetTransactions
                (snd (createSafeAttestationsTransaction Demo.sdk Demo.rowsHooks
                        Demo.noteState (fresh Demo.noteState)))))
  = Demo.noteState
  /\ store (snd (resetTransactions
                   (snd (createAttestations Demo.sdk Demo.rowsHooks Demo.noteState
                           (fresh Demo.noteState)))))
     = Demo.noteState.
Proof.
  apply (reset_undoes_submission Demo.sdk Demo.rowsHooks Demo.noteState
           (fresh Demo.noteState)).
  repeat split.
Defined.

Lemma submission_ignores_transaction_fields_witness :
  createSafeAttestationsTransaction Demo.sdk Demo.rowsHooks Sample.afterFailure
    (fresh Sample.afterFailure)
  = createSafeAttestationsTransaction Demo.sdk Demo.rowsHooks Demo.noteState
      (fresh Sample.afterFailure)
  /\ createAttestations Demo.sdk Demo.rowsHooks Sample.afterFailure
       (fresh Sample.afterFailure)
     = createAttestations Demo.sdk Demo.rowsHooks Demo.noteState
         (fresh Sample.afterFailure).
Proof.
  apply (submission_ignores_transaction_fields Demo.sdk Demo.rowsHooks Demo.noteState
           Sample.afterFailure (fresh Sample.afterFailure)).
  repeat split.
Defined.

Lemma blanks_around_declaration_are_ignored_witness :
  destructureField (" " ++ "string note" ++ String "009" (String "010" ""))
  = destructureField "string note".
Proof.
  apply (blanks_around_declaration_are_ignored " " "string note"
           (String "009" (String "010" ""))); reflexivity.
Defined.

Lemma mounted_provider_is_ready_witness :
  schemaRecord (store (Demo.mounted Demo.sdk Demo.rowsHooks)) = Some Sample.noteRecord
  /\ schemaRecordIsLoading (store (Demo.mounted Demo.sdk Demo.rowsHooks)) = Some false
  /\ schema (store (Demo.mounted Demo.sdk Demo.rowsHooks))
     = Some (resolvedFieldList Demo.sdk Demo.rowsHooks
               (SchemaRecord.schema Sample.noteRecord))
  /\ schemaEncoder (store (Demo.mounted Demo.sdk Demo.rowsHooks))
     = Some (SchemaEncoderRef 11)
  /\ schemaEncoderError (store (Demo.mounted Demo.sdk Demo.rowsHooks)) = None
  /\ effects (Demo.mounted Demo.sdk Demo.rowsHooks)
     = [GetSchema (props_schemaUid Demo.rowsHooks);
        NewSchemaEncoder (SchemaRecord.schema Sample.noteRecord)]
  /\ (SchemaRecord.revocable Sample.noteRecord = true ->
      rpcSigner Demo.rowsHooks <> None ->
      publicClient Demo.rowsHooks <> None ->
      JS.truthyNumber (option_map id (chain Demo.rowsHooks)) <> None ->
      directPreconditions Demo.rowsHooks (store (Demo.mounted Demo.sdk Demo.rowsHooks))
      <> None).
Proof.
  apply (mounted_provider_is_ready Demo.sdk Demo.rowsHooks
           {| address := "0xEAS"; registryAddress := "0xRegistry" |}
           (ProviderRef 0) Sample.noteRecord (SchemaEncoderRef 11));
    try reflexivity; discriminate.
Defined.

Lemma failed_load_halts_submissions_witness :
  schemaRecordError (store (Demo.mounted Demo.sdk Sample.unknownHooks))
  = Some Sample.notFound
  /\ schemaRecord (store (Demo.mounted Demo.sdk Sample.unknownHooks)) = None
  /\ schema (store (Demo.mounted Demo.sdk Sample.unknownHooks)) = None
  /\ schemaEncoder (store (Demo.mounted Demo.sdk Sample.unknownHooks)) = None
  /\ effects (Demo.mounted Demo.sdk Sample.unknownHooks)
     = [GetSchema (props_schemaUid Sample.unknownHooks)]
  /\ effects (snd (createSafeAttestationsTransaction Demo.sdk Sample.unknownHooks
                     (store (Demo.mounted Demo.sdk Sample.unknownHooks))
                     (Demo.mounted Demo.sdk Sample.unknownHooks)))
     = [GetSchema (props_schemaUid Sample.unknownHooks)]
  /\ effects (snd (createAttestations Demo.sdk Sample.unknownHooks
                     (store (Demo.mounted Demo.sdk Sample.unknownHooks))
                     (Demo.mounted Demo.sdk Sample.unknownHooks)))
     = [GetSchema (props_schemaUid Sample.unknownHooks)]
  /\ transactionStatus
       (store (snd (createAttestations Demo.sdk Sample.unknownHooks
                      (store (Demo.mounted Demo.sdk Sample.unknownHooks))
                      (Demo.mounted Demo.sdk Sample.unknownHooks))))
     = Some TxError.
Proof.
  apply (failed_load_halts_submissions Demo.sdk Sample.unknownHooks
           {| address := "0xEAS"; registryAddress := "0xRegistry" |}
           (ProviderRef 0) Sample.notFound);
    try reflexivity; discriminate.
Defined.

Example safe_trace_of_broken_csv :
  safeStatusTrace (snd (createSafeAttestationsTransaction Demo.sdk Sample.brokenHooks
                          Demo.noteState (fresh Demo.noteState)))
  = [Some SafeCreating; Some SafeError].
Proof. reflexivity. Qed.

Example single_word_declaration :
  resolvedFieldList Demo.sdk Demo.rowsHooks "bool"
  = [{| name := None; type := "bool" |}; recipientField].
Proof. reflexivity. Qed.

Example stale_uid_after_prop_change :
  schemaUid (store Demo.afterSchemaChange) = "0xgood"
  /\ props_schemaUid Demo.badHooks = "0xbad".
Proof. split; reflexivity. Qed.
